(** * Secure-Chat: the WebSocket connection router

    A shallow embedding of the class [WebSocketHandler]
    ([backend/src/services/wsHandler]) and of the presence routes of the
    HTTP layer ([backend/src/api/wsMessage]: [GET /websocket/status] and
    [GET /websocket/user/:username/status]), followed by the properties
    of the router.

    Modelling choices, all taken from the source:
    - a JavaScript [Map] is an insertion-ordered association list
      ([Array.from(map.keys())] exposes that order);
    - socket ids and usernames are strings; an absent property of a
      payload object is [None]; a payload that is not an object at all
      (the client emitted the event without argument) is [None] and makes
      the destructuring assignment throw;
    - every handler body is wrapped in [try { ... } catch], so handlers
      live in a state monad with exceptions;
    - [socket.emit] and [io.to(id).emit] append to an outbox;
    - [Date.now()], [new Date()] and [Math.random()] read an oracle, the
      k-th call returning the k-th value. *)

From Stdlib Require Import String ZArith Bool.
From stdpp Require Import list strings pretty.

Open Scope string_scope.
Open Scope list_scope.

(** ** JavaScript Map *)

Module JsMap.
Section Ops.
Context {K V : Type} `{EqDecision K}.

(** [new Map()] *)
Definition empty : list (K * V) := [].

(** [map.get(k)]; [None] is [undefined]. *)
Fixpoint get (k : K) (m : list (K * V)) : option V :=
  match m with
  | [] => None
  | (k', v) :: m' => if decide (k = k') then Some v else get k m'
  end.

(** [map.has(k)] *)
Definition has (k : K) (m : list (K * V)) : bool :=
  match get k m with Some _ => true | None => false end.

(** [map.set(k, v)]: an existing key keeps its position, a new key is
    appended. *)
Fixpoint set (k : K) (v : V) (m : list (K * V)) : list (K * V) :=
  match m with
  | [] => [(k, v)]
  | (k', v') :: m' =>
      if decide (k = k') then (k, v) :: m' else (k', v') :: set k v m'
  end.

(** [map.delete(k)] *)
Fixpoint delete (k : K) (m : list (K * V)) : list (K * V) :=
  match m with
  | [] => []
  | (k', v') :: m' =>
      if decide (k = k') then delete k m' else (k', v') :: delete k m'
  end.

(** [map.size] *)
Definition size (m : list (K * V)) : nat := length m.

(** [Array.from(map.keys())] *)
Definition keys (m : list (K * V)) : list K := fst <$> m.

End Ops.
End JsMap.

(** ** Data *)

(** [socket.id] *)
Abbreviation SocketId := string (only parsing).

(** The value stored in [userSockets]: [{ username, connectedAt }]. *)
Record UserData := mkUserData {
  username : string;
  connectedAt : Z
}.

(** The fields of the class; [io] is the socket.io server, assigned by
    [initialize] before [setupEventHandlers] registers any handler, and
    appears here only through the outbox. *)
Record WebSocketHandler := mkHandler {
  connectedUsers : list (string * SocketId);   (* username -> socket.id *)
  userSockets : list (SocketId * UserData)     (* socket.id -> user data *)
}.

(** Payloads of the client events.  A property is a string (a number for
    [timestamp], a boolean for [isTyping]) or absent, which is what the
    client of this repository sends; other JSON values are outside the
    model. *)
Record AuthData := mkAuthData { auth_username : option string }.

Record MessageData := mkMessageData {
  msg_to : option string;
  msg_encryptedContent : option string;
  msg_timestamp : option Z;
  msg_id : option string
}.

Record ConfirmationData := mkConfirmationData {
  conf_messageId : option string;
  conf_from : option string
}.

Record TypingData := mkTypingData {
  typ_to : option string;
  typ_isTyping : option bool
}.

(** Events the router emits, with their payload objects. *)
Inductive ServerEvent :=
| authError (error : string)
| authenticated (success : bool) (user : string)
| error (error : string)
| message (id from to content : string) (timestamp deliveredAt : Z)
| messageDelivered (messageId status : string) (error : option string)
                   (timestamp : Z)
| messageRead (messageId : option string) (readBy : string) (timestamp : Z)
| userTyping (from : string) (isTyping : option bool).

(** One emission: [socket.emit(ev)] on the handler's own socket, or
    [io.to(room).emit(ev)] to the room named after a socket id (every
    socket is the only member of the room of its own id). *)
Inductive Emission :=
| socket_emit (socket : SocketId) (ev : ServerEvent)
| io_to_emit (room : SocketId) (ev : ServerEvent).

Definition connection_of (e : Emission) : SocketId :=
  match e with
  | socket_emit s _ => s
  | io_to_emit r _ => r
  end.

Definition event_of (e : Emission) : ServerEvent :=
  match e with
  | socket_emit _ ev => ev
  | io_to_emit _ ev => ev
  end.

(** The events of a log that reach connection [h]. *)
Definition events_on (h : SocketId) (log : list Emission) : list ServerEvent :=
  map event_of (filter (fun e => connection_of e = h) log).

(** ** JavaScript truthiness of the values that are tested *)

(** [truthy o] is the value of [o] when JavaScript takes it for true in a
    condition or on the left of [||]: [undefined] and the empty string
    are falsy. *)
Definition truthy (o : option string) : option string :=
  match o with
  | Some s => if String.eqb s "" then None else Some s
  | None => None
  end.

(** The same for a number: [undefined] and [0] are falsy. *)
Definition truthy_number (o : option Z) : option Z :=
  match o with
  | Some z => if Z.eqb z 0 then None else Some z
  | None => None
  end.

(** [map.get(k)] where [k] may be [undefined]: the keys of the maps of the
    router are strings, so [undefined] is never found. *)
Definition get_maybe {V} (k : option string) (m : list (string * V)) : option V :=
  match k with
  | Some k => JsMap.get k m
  | None => None
  end.

(** ** The handler monad *)

Record Oracle := mkOracle {
  Date_now : nat -> Z;                 (* k-th reading of the clock *)
  Math_random_base36 : nat -> string   (* k-th Math.random().toString(36) *)
}.

Record World := mkWorld {
  router : WebSocketHandler;
  outbox : list Emission;
  clock_reads : nat;
  random_reads : nat
}.

Inductive Res (A : Type) :=
| Ok (a : A) (w : World)
| Throw (w : World).
Arguments Ok {A} a w.
Arguments Throw {A} w.

Definition M (A : Type) := World -> Res A.

Definition ret {A} (a : A) : M A := fun w => Ok a w.

Definition bind {A B} (m : M A) (f : A -> M B) : M B :=
  fun w => match m w with
           | Ok a w' => f a w'
           | Throw w' => Throw w'
           end.

Notation "'do' x <- m ; k" := (bind m (fun x => k))
  (at level 10, x name, m at level 100, k at level 200).
Notation "'run' m ; k" := (bind m (fun _ => k))
  (at level 10, m at level 100, k at level 200).

Definition throw {A} : M A := fun w => Throw w.

(** [try { body } catch (error) { handler }] *)
Definition try_catch (body handler : M unit) : M unit :=
  fun w => match body w with
           | Ok a w' => Ok a w'
           | Throw w' => handler w'
           end.

(** The world after running a handler to completion. *)
Definition exec (m : M unit) (w : World) : World :=
  match m w with
  | Ok _ w' => w'
  | Throw w' => w'
  end.

Definition this_connectedUsers : M (list (string * SocketId)) :=
  fun w => Ok (connectedUsers (router w)) w.

Definition this_userSockets : M (list (SocketId * UserData)) :=
  fun w => Ok (userSockets (router w)) w.

Definition put_connectedUsers (m : list (string * SocketId)) : M unit :=
  fun w => Ok tt (mkWorld (mkHandler m (userSockets (router w)))
                          (outbox w) (clock_reads w) (random_reads w)).

Definition put_userSockets (m : list (SocketId * UserData)) : M unit :=
  fun w => Ok tt (mkWorld (mkHandler (connectedUsers (router w)) m)
                          (outbox w) (clock_reads w) (random_reads w)).

Definition emit (e : Emission) : M unit :=
  fun w => Ok tt (mkWorld (router w) (outbox w ++ [e])
                          (clock_reads w) (random_reads w)).

(** Destructuring [const { ... } = payload] throws a TypeError when the
    payload is [undefined]. *)
Definition destructure {A} (payload : option A) : M A :=
  match payload with
  | Some a => ret a
  | None => throw
  end.

Section Router.

Variable oracle : Oracle.

(** [Date.now()] (and the instant captured by [new Date()]). *)
Definition date_now : M Z :=
  fun w => Ok (Date_now oracle (clock_reads w))
              (mkWorld (router w) (outbox w) (S (clock_reads w)) (random_reads w)).

(** [Math.random().toString(36)] *)
Definition math_random_toString36 : M string :=
  fun w => Ok (Math_random_base36 oracle (random_reads w))
              (mkWorld (router w) (outbox w) (clock_reads w) (S (random_reads w))).

(** ** The class *)

(** [constructor()] *)
Definition constructor : WebSocketHandler :=
  mkHandler JsMap.empty JsMap.empty.

(** [handleAuthentication(socket, authData)] *)
Definition handleAuthentication (socket : SocketId) (authData : option AuthData)
  : M unit :=
  try_catch
    (do ad <- destructure authData;
     match truthy (auth_username ad) with
     | None => emit (socket_emit socket (authError "Username is required"))
     | Some username =>
         do cu <- this_connectedUsers;
         run put_connectedUsers (JsMap.set username socket cu);
         do now <- date_now;
         do us <- this_userSockets;
         run put_userSockets (JsMap.set socket (mkUserData username now) us);
         emit (socket_emit socket (authenticated true username))
     end)
    (emit (socket_emit socket (authError "Authentication failed"))).

(** [`msg_${Date.now()}_${Math.random().toString(36).substr(2, 9)}`] *)
Definition generate_messageId : M string :=
  do t <- date_now;
  do r <- math_random_toString36;
  ret ("msg_" ++ pretty t ++ "_" ++ String.substring 2 9 r)%string.

(** [handleMessageSend(socket, messageData)] *)
Definition handleMessageSend (socket : SocketId) (messageData : option MessageData)
  : M unit :=
  try_catch
    (do us <- this_userSockets;
     match JsMap.get socket us with
     | None => emit (socket_emit socket (error "Not authenticated"))
     | Some senderData =>
         do md <- destructure messageData;
         match truthy (msg_to md), truthy (msg_encryptedContent md) with
         | Some to, Some encryptedContent =>
             do messageId <- match truthy (msg_id md) with
                             | Some id => ret id
                             | None => generate_messageId
                             end;
             do timestamp <- match truthy_number (msg_timestamp md) with
                             | Some t => ret t
                             | None => date_now
                             end;
             do deliveredAt <- date_now;
             do cu <- this_connectedUsers;
             match truthy (JsMap.get to cu) with
             | Some recipientSocketId =>
                 run emit (io_to_emit recipientSocketId
                             (message messageId (username senderData) to
                                      encryptedContent timestamp deliveredAt));
                 do now <- date_now;
                 emit (socket_emit socket
                         (messageDelivered messageId "delivered" None now))
             | None =>
                 do now <- date_now;
                 emit (socket_emit socket
                         (messageDelivered messageId "failed"
                                           (Some "Recipient is offline") now))
             end
         | _, _ =>
             emit (socket_emit socket
                     (error "Recipient and message content are required"))
         end
     end)
    (emit (socket_emit socket (error "Message send failed"))).

(** [handleMessageReceived(socket, confirmationData)] *)
Definition handleMessageReceived (socket : SocketId)
    (confirmationData : option ConfirmationData) : M unit :=
  try_catch
    (do us <- this_userSockets;
     match JsMap.get socket us with
     | None => ret tt
     | Some receiverData =>
         do cd <- destructure confirmationData;
         do cu <- this_connectedUsers;
         match truthy (get_maybe (conf_from cd) cu) with
         | Some senderSocketId =>
             do now <- date_now;
             emit (io_to_emit senderSocketId
                     (messageRead (conf_messageId cd) (username receiverData) now))
         | None => ret tt
         end
     end)
    (ret tt).

(** [handleTyping(socket, typingData)] *)
Definition handleTyping (socket : SocketId) (typingData : option TypingData)
  : M unit :=
  try_catch
    (do us <- this_userSockets;
     match JsMap.get socket us with
     | None => ret tt
     | Some senderData =>
         do td <- destructure typingData;
         do cu <- this_connectedUsers;
         match truthy (get_maybe (typ_to td) cu) with
         | Some recipientSocketId =>
             emit (io_to_emit recipientSocketId
                     (userTyping (username senderData) (typ_isTyping td)))
         | None => ret tt
         end
     end)
    (ret tt).

(** [handleDisconnection(socket)] *)
Definition handleDisconnection (socket : SocketId) : M unit :=
  try_catch
    (do us <- this_userSockets;
     match JsMap.get socket us with
     | Some userData =>
         do cu <- this_connectedUsers;
         run put_connectedUsers (JsMap.delete (username userData) cu);
         do us' <- this_userSockets;
         put_userSockets (JsMap.delete socket us')
     | None => ret tt
     end)
    (ret tt).

(** [getConnectedUsersCount()] *)
Definition getConnectedUsersCount : M nat :=
  do cu <- this_connectedUsers; ret (JsMap.size cu).

(** [getConnectedUsernames()] *)
Definition getConnectedUsernames : M (list string) :=
  do cu <- this_connectedUsers; ret (JsMap.keys cu).

(** [isUserOnline(username)] *)
Definition isUserOnline (username : string) : M bool :=
  do cu <- this_connectedUsers; ret (JsMap.has username cu).

(** ** Events of a client and runs of the router *)

(** What [setupEventHandlers] registers on a connected socket. *)
Inductive ClientEvent :=
| authenticate (authData : option AuthData)
| sendMessage (messageData : option MessageData)
| messageReceived (confirmationData : option ConfirmationData)
| typing (typingData : option TypingData)
| disconnect
| socket_error.

Definition on (socket : SocketId) (e : ClientEvent) : M unit :=
  match e with
  | authenticate authData => handleAuthentication socket authData
  | sendMessage messageData => handleMessageSend socket messageData
  | messageReceived confirmationData => handleMessageReceived socket confirmationData
  | typing typingData => handleTyping socket typingData
  | disconnect => handleDisconnection socket
  | socket_error => ret tt
  end.

Definition step (w : World) (se : SocketId * ClientEvent) : World :=
  exec (on (fst se) (snd se)) w.

(** The handlers run one after the other, in arrival order. *)
Definition run_trace (tr : list (SocketId * ClientEvent)) (w : World) : World :=
  fold_left step tr w.

(** The world of a router that was just constructed. *)
Definition initial_world : World := mkWorld constructor [] 0 0.

(** socket.io never hands out an empty socket id. *)
Definition valid_socket_ids (tr : list (SocketId * ClientEvent)) : bool :=
  forallb (fun se => negb (String.eqb (fst se) "")) tr.

(** ** The presence routes of the HTTP layer *)

Inductive Json :=
| status_body (success : bool) (status : string) (connectedUsers : nat)
              (connectedUsernames : list string)
| user_status_body (success : bool) (user : string) (isOnline : bool)
| failure_body (success : bool) (error : string).

(** [GET /websocket/status]; [wsHandler] is [req.app.locals.wsHandler]. *)
Definition GET_websocket_status (wsHandler : option World) : nat * Json :=
  match wsHandler with
  | None => (503, failure_body false "WebSocket service not available")
  | Some w =>
      match getConnectedUsersCount w with
      | Ok n w1 =>
          match getConnectedUsernames w1 with
          | Ok names _ => (200, status_body true "active" n names)
          | Throw _ => (500, failure_body false "Failed to get WebSocket status")
          end
      | Throw _ => (500, failure_body false "Failed to get WebSocket status")
      end
  end.

(** [GET /websocket/user/:username/status] (without [checkedAt]). *)
Definition GET_websocket_user_status (wsHandler : option World) (user : string)
  : nat * Json :=
  match wsHandler with
  | None => (503, failure_body false "WebSocket service not available")
  | Some w =>
      match isUserOnline user w with
      | Ok b _ => (200, user_status_body true user b)
      | Throw _ => (500, failure_body false "Failed to check user status")
      end
  end.

End Router.

(** ** Vocabulary of the properties *)

(** What one handler invocation adds to the outbox. *)
Definition emitted_by (m : M unit) (w : World) : list Emission :=
  drop (length (outbox w)) (outbox (exec m w)).

(** The identity bound to a connection handle ([userSockets] direction). *)
Definition identity_of (w : World) (h : SocketId) : option string :=
  username <$> JsMap.get h (userSockets (router w)).

(** The connection handle bound to an identity ([connectedUsers]
    direction). *)
Definition handle_of (w : World) (user : string) : option SocketId :=
  JsMap.get user (connectedUsers (router w)).

(** At most one handle per identity, read in the identity-to-handle
    table: no identity has two entries. *)
Definition one_handle_per_identity_forward (w : World) : Prop :=
  forall (user : string) (h h' : SocketId),
    (user, h) ∈ connectedUsers (router w) ->
    (user, h') ∈ connectedUsers (router w) -> h = h'.

(** At most one handle per identity, read in the handle-to-identity
    table: no two handles carry the same identity. *)
Definition one_handle_per_identity_backward (w : World) : Prop :=
  forall (user : string) (h h' : SocketId),
    identity_of w h = Some user -> identity_of w h' = Some user -> h = h'.

(** An identify call with a payload object carrying [user]. *)
Definition identify (user : string) : ClientEvent :=
  authenticate (Some (mkAuthData (Some user))).

(** A sequence of identify calls, as a trace. *)
Definition identify_calls (calls : list (SocketId * option AuthData))
  : list (SocketId * ClientEvent) :=
  map (fun c => (fst c, authenticate (snd c))) calls.

(** Events that can rebind or unbind the identity of the connection they
    arrive on: a successful identify and the transport close. *)
Definition rebinds (e : ClientEvent) : bool :=
  match e with
  | authenticate (Some ad) =>
      match truthy (auth_username ad) with Some _ => true | None => false end
  | disconnect => true
  | _ => false
  end.

(** The id of a message sent in world [w]: the caller's when truthy,
    else the token generated from the next clock and random readings. *)
Definition resolved_id (oracle : Oracle) (id : option string) (w : World)
  : string :=
  match truthy id with
  | Some i => i
  | None => ("msg_" ++ pretty (Date_now oracle (clock_reads w)) ++ "_"
              ++ String.substring 2 9
                   (Math_random_base36 oracle (random_reads w)))%string
  end.

(** No key occurs twice in either table. *)
Definition tables_nodup (r : WebSocketHandler) : Prop :=
  NoDup (JsMap.keys (connectedUsers r)) /\ NoDup (JsMap.keys (userSockets r)).

(** Every handle stored in [connectedUsers] is a non-empty socket id. *)
Definition handles_nonempty (r : WebSocketHandler) : Prop :=
  forall (user : string) (h : SocketId),
    JsMap.get user (connectedUsers r) = Some h -> h <> "".

(** A fixed oracle for the closed examples. *)
Definition sample_oracle : Oracle :=
  mkOracle (fun k => (1700000000000 + Z.of_nat k)%Z) (fun _ => "0.4fzyo82mvyr").

(** ** Vocabulary of the further properties *)

(** The events the router forwards from one client to another; every
    other event is feedback to the client that caused it. *)
Definition relay_event (ev : ServerEvent) : bool :=
  match ev with
  | message _ _ _ _ _ _ => true
  | messageRead _ _ _ => true
  | userTyping _ _ => true
  | _ => false
  end.

(** An emission caused by an event that arrived on [H] in world [w] is
    in scope when it is feedback written to [H] itself, or a relay event
    sent to a handle that [connectedUsers] holds in [w]. *)
Definition in_scope (w : World) (H : SocketId) (e : Emission) : Prop :=
  match e with
  | socket_emit s ev => s = H /\ relay_event ev = false
  | io_to_emit r ev =>
      relay_event ev = true /\ exists user : string, handle_of w user = Some r
  end.

(** The identity a relay event names as its author: [from] of 'message'
    and 'userTyping', [readBy] of 'messageRead'. *)
Definition author_of (ev : ServerEvent) : option string :=
  match ev with
  | message _ from _ _ _ _ => Some from
  | messageRead _ readBy _ => Some readBy
  | userTyping from _ => Some from
  | _ => None
  end.

(** No empty identity is stored, in either table. *)
Definition identities_nonempty (r : WebSocketHandler) : Prop :=
  (forall user : string, user ∈ JsMap.keys (connectedUsers r) -> user <> "")
  /\ (forall (h : SocketId) (userData : UserData),
        JsMap.get h (userSockets r) = Some userData ->
        username userData <> "").

(** ** The broadcast route of the HTTP layer *)

(** [req.body] of [POST /websocket/broadcast]: [{ message, type }]. *)
Record BroadcastRequest := mkBroadcastRequest {
  bc_message : option string;
  bc_type : option string
}.

(** The payload of the 'systemBroadcast' event, sent with [io.emit] to
    every connected client. *)
Inductive BroadcastEvent :=
| systemBroadcast (type message : string) (timestamp : Z) (broadcastId : string).

Inductive BroadcastJson :=
| broadcast_sent_body (success : bool) (message : string) (recipientCount : nat)
| broadcast_failure_body (success : bool) (error : string).

(** What one request does: the response, the broadcasts handed to
    [io.emit], and the handler object afterwards. *)
Record BroadcastOutcome := mkBroadcastOutcome {
  bo_status : nat;
  bo_body : BroadcastJson;
  bo_emitted : list BroadcastEvent;
  bo_handler : option World
}.

(** The part of the route after its two guards: [io.emit(...)] and the
    success response. *)
Definition send_broadcast (oracle : Oracle) (type text : string)
  : M (nat * BroadcastJson * list BroadcastEvent) :=
  do timestamp <- date_now oracle;
  do t <- date_now oracle;
  do n <- getConnectedUsersCount;
  ret (200, broadcast_sent_body true "Broadcast sent successfully" n,
       [systemBroadcast type text timestamp ("broadcast_" ++ pretty t)%string]).

(** [POST /websocket/broadcast]; [wsHandler] is [req.app.locals.wsHandler]
    and [io] tells whether its [io] field is set.  The default of [type]
    applies to an absent property only. *)
Definition POST_websocket_broadcast (oracle : Oracle)
    (body : option BroadcastRequest) (wsHandler : option World) (io : bool)
  : BroadcastOutcome :=
  match body with
  | None =>
      mkBroadcastOutcome 500
        (broadcast_failure_body false "Failed to send broadcast") [] wsHandler
  | Some b =>
      let type := match bc_type b with Some t => t | None => "announcement" end in
      match wsHandler with
      | None =>
          mkBroadcastOutcome 503
            (broadcast_failure_body false "WebSocket service not available")
            [] wsHandler
      | Some w =>
          if negb io then
            mkBroadcastOutcome 503
              (broadcast_failure_body false "WebSocket service not available")
              [] wsHandler
          else
            match truthy (bc_message b) with
            | None =>
                mkBroadcastOutcome 400
                  (broadcast_failure_body false "Message is required")
                  [] wsHandler
            | Some text =>
                match send_broadcast oracle type text w with
                | Ok (status, json, sent) w' =>
                    mkBroadcastOutcome status json sent (Some w')
                | Throw w' =>
                    mkBroadcastOutcome 500
                      (broadcast_failure_body false "Failed to send broadcast")
                      [] (Some w')
                end
            end
      end
  end.

(** ** Facts about JavaScript maps *)

Module JsMapFacts.
Section Facts.
Context {K V : Type} `{EqDecision K}.
Implicit Types (k : K) (v : V) (m : list (K * V)).

Lemma get_set_eq k v m : JsMap.get k (JsMap.set k v m) = Some v.
Proof.
  induction m as [|[k' v'] m IH]; simpl.
  - by rewrite decide_True.
  - destruct (decide (k = k')) as [->|Hne]; simpl.
    + by rewrite decide_True.
    + by rewrite decide_False.
Qed.

Lemma get_set_ne k k' v m :
  k <> k' -> JsMap.get k' (JsMap.set k v m) = JsMap.get k' m.
Proof.
  intros Hne. induction m as [|[k0 v0] m IH]; simpl.
  - rewrite decide_False; [done | congruence].
  - destruct (decide (k = k0)) as [->|Hk]; simpl.
    + rewrite !decide_False; [done | congruence | congruence].
    + destruct (decide (k' = k0)); [done | exact IH].
Qed.

Lemma get_delete_eq k m : JsMap.get k (JsMap.delete k m) = None.
Proof.
  induction m as [|[k' v'] m IH]; simpl; [done|].
  destruct (decide (k = k')) as [->|Hne]; simpl; [done|].
  by rewrite decide_False.
Qed.

Lemma get_delete_ne k k' m :
  k <> k' -> JsMap.get k' (JsMap.delete k m) = JsMap.get k' m.
Proof.
  intros Hne. induction m as [|[k0 v0] m IH]; simpl; [done|].
  destruct (decide (k = k0)) as [->|Hk]; simpl.
  - rewrite decide_False; [exact IH | congruence].
  - destruct (decide (k' = k0)); [done | exact IH].
Qed.

Lemma get_Some_elem_of k v m : JsMap.get k m = Some v -> (k, v) ∈ m.
Proof.
  induction m as [|[k' v'] m IH]; simpl; [done|].
  destruct (decide (k = k')) as [->|Hne].
  - intros [= ->]. left.
  - intros Hg. right. by apply IH.
Qed.

Lemma get_None_not_key k m : JsMap.get k m = None <-> k ∉ JsMap.keys m.
Proof.
  induction m as [|[k' v'] m IH]; simpl.
  - split; [intros _; apply not_elem_of_nil | done].
  - rewrite not_elem_of_cons. destruct (decide (k = k')) as [->|Hne].
    + split; [done | intros [Hk _]; done].
    + rewrite IH. tauto.
Qed.

Lemma has_true_key k m : JsMap.has k m = true <-> k ∈ JsMap.keys m.
Proof.
  unfold JsMap.has. destruct (JsMap.get k m) eqn:Hg.
  - split; [intros _ | done].
    destruct (decide (k ∈ JsMap.keys m)) as [|Hn]; [done|].
    apply get_None_not_key in Hn. congruence.
  - split; [done|]. intros Hin. apply get_None_not_key in Hg. done.
Qed.

Lemma elem_of_get k v m :
  NoDup (JsMap.keys m) -> (k, v) ∈ m -> JsMap.get k m = Some v.
Proof.
  induction m as [|[k' v'] m IH]; simpl.
  - intros _ Hin. by apply elem_of_nil in Hin.
  - rewrite NoDup_cons. intros [Hk Hnd] Hin.
    apply elem_of_cons in Hin as [[= -> ->]|Hin].
    + by rewrite decide_True.
    + destruct (decide (k = k')) as [->|Hne]; [|by apply IH].
      exfalso. apply Hk. unfold JsMap.keys.
      apply (list_elem_of_fmap_2 fst) in Hin. exact Hin.
Qed.

Lemma keys_set k v m k' :
  k' ∈ JsMap.keys (JsMap.set k v m) <-> k' = k \/ k' ∈ JsMap.keys m.
Proof.
  induction m as [|[k0 v0] m IH]; simpl.
  - rewrite list_elem_of_singleton.
    split; [tauto | intros [?|Hin]; [done | by apply elem_of_nil in Hin]].
  - destruct (decide (k = k0)) as [->|Hne]; simpl.
    + rewrite !elem_of_cons. tauto.
    + rewrite !elem_of_cons, IH. tauto.
Qed.

Lemma keys_delete k m k' :
  k' ∈ JsMap.keys (JsMap.delete k m) <-> k' <> k /\ k' ∈ JsMap.keys m.
Proof.
  induction m as [|[k0 v0] m IH]; simpl.
  - split; [intros Hin; by apply elem_of_nil in Hin | tauto].
  - destruct (decide (k = k0)) as [->|Hne]; simpl.
    + rewrite IH, elem_of_cons. split; [tauto|].
      intros [Hk [->|Hin]]; [done | tauto].
    + rewrite !elem_of_cons, IH. split; [|tauto].
      intros [->|[? ?]]; [split; [congruence | by left] | tauto].
Qed.

Lemma NoDup_keys_set k v m :
  NoDup (JsMap.keys m) -> NoDup (JsMap.keys (JsMap.set k v m)).
Proof.
  induction m as [|[k0 v0] m IH]; simpl.
  - intros _. apply NoDup_singleton.
  - rewrite NoDup_cons. intros [Hk Hnd].
    destruct (decide (k = k0)) as [->|Hne]; simpl.
    + by apply NoDup_cons.
    + apply NoDup_cons. split; [|by apply IH].
      intros Hin. apply keys_set in Hin as [?|?]; [congruence | done].
Qed.

Lemma NoDup_keys_delete k m :
  NoDup (JsMap.keys m) -> NoDup (JsMap.keys (JsMap.delete k m)).
Proof.
  induction m as [|[k0 v0] m IH]; simpl; [done|].
  rewrite NoDup_cons. intros [Hk Hnd].
  destruct (decide (k = k0)) as [->|Hne]; simpl; [by apply IH|].
  apply NoDup_cons. split; [|by apply IH].
  intros Hin. apply keys_delete in Hin as [_ ?]. done.
Qed.

Lemma size_keys m : JsMap.size m = length (JsMap.keys m).
Proof. unfold JsMap.size, JsMap.keys. by rewrite length_fmap. Qed.

(** Every value found in [set k v m] is [v] or was already in [m]. *)
Lemma get_set_value (P : V -> Prop) k v m :
  P v -> (forall k' v', JsMap.get k' m = Some v' -> P v') ->
  forall k' v', JsMap.get k' (JsMap.set k v m) = Some v' -> P v'.
Proof.
  intros Hv Hm k' v'. destruct (decide (k = k')) as [->|Hne].
  - rewrite get_set_eq. by intros [= <-].
  - rewrite get_set_ne by done. apply Hm.
Qed.

Lemma get_delete_value (P : V -> Prop) k m :
  (forall k' v', JsMap.get k' m = Some v' -> P v') ->
  forall k' v', JsMap.get k' (JsMap.delete k m) = Some v' -> P v'.
Proof.
  intros Hm k' v'. destruct (decide (k = k')) as [->|Hne].
  - by rewrite get_delete_eq.
  - rewrite get_delete_ne by done. apply Hm.
Qed.

End Facts.
End JsMapFacts.

(** ** What each handler does to the world *)

Ltac run_handler :=
  unfold exec, try_catch, bind, ret, throw, destructure, emit,
    this_userSockets, this_connectedUsers, put_userSockets,
    put_connectedUsers, date_now, math_random_toString36,
    generate_messageId; simpl.

Ltac case_truthy :=
  match goal with
  | |- context [match truthy ?x with _ => _ end] => destruct (truthy x) eqn:?
  end.

Section RouterFacts.

Variable oracle : Oracle.

Lemma truthy_nonempty (s : string) : s <> "" -> truthy (Some s) = Some s.
Proof.
  intros Hs. simpl. destruct (String.eqb s "") eqn:E; [|done].
  apply String.eqb_eq in E. done.
Qed.

Lemma truthy_Some_inv (o : option string) (s : string) :
  truthy o = Some s -> o = Some s /\ s <> "".
Proof.
  destruct o as [s'|]; simpl; [|done].
  destruct (String.eqb s' "") eqn:E; [done|].
  intros [= <-]. split; [done|]. by apply String.eqb_neq.
Qed.

Lemma truthy_None_inv (o : option string) :
  truthy o = None -> o = None \/ o = Some "".
Proof.
  destruct o as [s|]; simpl; [|by left].
  destruct (String.eqb s "") eqn:E; [|done].
  apply String.eqb_eq in E. subst. by right.
Qed.

Lemma emitted_by_app (m : M unit) (w : World) (l : list Emission) :
  outbox (exec m w) = outbox w ++ l -> emitted_by m w = l.
Proof. intros H. unfold emitted_by. rewrite H. apply drop_app_length. Qed.

Lemma emitted_by_same (m : M unit) (w : World) :
  exec m w = w -> emitted_by m w = [].
Proof. intros H. apply emitted_by_app. rewrite H. by rewrite app_nil_r. Qed.

Lemma events_on_other (h h' : SocketId) (ev : ServerEvent) :
  h' <> h -> events_on h' [socket_emit h ev] = [].
Proof.
  intros Hne. unfold events_on. rewrite filter_cons_False; [done|].
  simpl. congruence.
Qed.

(** *** authenticate *)

Lemma handleAuthentication_bound socket ad user w :
  truthy (auth_username ad) = Some user ->
  exec (handleAuthentication oracle socket (Some ad)) w =
  mkWorld
    (mkHandler
       (JsMap.set user socket (connectedUsers (router w)))
       (JsMap.set socket (mkUserData user (Date_now oracle (clock_reads w)))
                  (userSockets (router w))))
    (outbox w ++ [socket_emit socket (authenticated true user)])
    (S (clock_reads w)) (random_reads w).
Proof.
  intros Hu. unfold handleAuthentication. run_handler. by rewrite Hu.
Qed.

Lemma handleAuthentication_required socket ad w :
  truthy (auth_username ad) = None ->
  exec (handleAuthentication oracle socket (Some ad)) w =
  mkWorld (router w)
          (outbox w ++ [socket_emit socket (authError "Username is required")])
          (clock_reads w) (random_reads w).
Proof.
  intros Hu. unfold handleAuthentication. run_handler. by rewrite Hu.
Qed.

Lemma handleAuthentication_thrown socket w :
  exec (handleAuthentication oracle socket None) w =
  mkWorld (router w)
          (outbox w ++ [socket_emit socket (authError "Authentication failed")])
          (clock_reads w) (random_reads w).
Proof. reflexivity. Qed.

Lemma identify_bound socket user w :
  user <> "" ->
  step oracle w (socket, identify user) =
  mkWorld
    (mkHandler
       (JsMap.set user socket (connectedUsers (router w)))
       (JsMap.set socket (mkUserData user (Date_now oracle (clock_reads w)))
                  (userSockets (router w))))
    (outbox w ++ [socket_emit socket (authenticated true user)])
    (S (clock_reads w)) (random_reads w).
Proof.
  intros Hu. unfold step, identify; simpl.
  apply handleAuthentication_bound. simpl. by apply truthy_nonempty.
Qed.

(** *** disconnect *)

Lemma handleDisconnection_identified socket userData w :
  JsMap.get socket (userSockets (router w)) = Some userData ->
  exec (handleDisconnection socket) w =
  mkWorld
    (mkHandler
       (JsMap.delete (username userData) (connectedUsers (router w)))
       (JsMap.delete socket (userSockets (router w))))
    (outbox w) (clock_reads w) (random_reads w).
Proof.
  intros Hs. unfold handleDisconnection. run_handler. by rewrite Hs.
Qed.

Lemma handleDisconnection_unidentified socket w :
  JsMap.get socket (userSockets (router w)) = None ->
  exec (handleDisconnection socket) w = w.
Proof.
  intros Hs. unfold handleDisconnection. run_handler. by rewrite Hs.
Qed.

(** *** sendMessage, messageReceived, typing: the tables are read only *)

Lemma handleMessageSend_router socket messageData w :
  router (exec (handleMessageSend oracle socket messageData) w) = router w.
Proof.
  unfold handleMessageSend. run_handler.
  destruct (JsMap.get socket _); [|done].
  destruct messageData as [md|]; simpl; [|done].
  destruct (truthy (msg_to md)); [|done].
  destruct (truthy (msg_encryptedContent md)); [|done].
  destruct (truthy (msg_id md)), (truthy_number (msg_timestamp md)); simpl;
    case_truthy; reflexivity.
Qed.

Lemma handleMessageReceived_router socket confirmationData w :
  router (exec (handleMessageReceived oracle socket confirmationData) w)
  = router w.
Proof.
  unfold handleMessageReceived. run_handler.
  destruct (JsMap.get socket _); [|done].
  destruct confirmationData as [cd|]; simpl; [|done].
  case_truthy; reflexivity.
Qed.

Lemma handleTyping_router socket typingData w :
  router (exec (handleTyping socket typingData) w) = router w.
Proof.
  unfold handleTyping. run_handler.
  destruct (JsMap.get socket _); [|done].
  destruct typingData as [td|]; simpl; [|done].
  case_truthy; reflexivity.
Qed.

Lemma handleMessageSend_unauthenticated socket messageData w :
  JsMap.get socket (userSockets (router w)) = None ->
  exec (handleMessageSend oracle socket messageData) w =
  mkWorld (router w)
          (outbox w ++ [socket_emit socket (error "Not authenticated")])
          (clock_reads w) (random_reads w).
Proof.
  intros Hs. unfold handleMessageSend. run_handler. by rewrite Hs.
Qed.

Lemma handleMessageSend_routed socket senderData md to content w :
  JsMap.get socket (userSockets (router w)) = Some senderData ->
  truthy (msg_to md) = Some to ->
  truthy (msg_encryptedContent md) = Some content ->
  exists timestamp deliveredAt now : Z,
    emitted_by (handleMessageSend oracle socket (Some md)) w =
    match truthy (JsMap.get to (connectedUsers (router w))) with
    | Some recipientSocketId =>
        [io_to_emit recipientSocketId
           (message (resolved_id oracle (msg_id md) w) (username senderData)
                    to content timestamp deliveredAt);
         socket_emit socket
           (messageDelivered (resolved_id oracle (msg_id md) w) "delivered"
                             None now)]
    | None =>
        [socket_emit socket
           (messageDelivered (resolved_id oracle (msg_id md) w) "failed"
                             (Some "Recipient is offline") now)]
    end.
Proof.
  intros Hs Hto Hc. unfold emitted_by, handleMessageSend, resolved_id.
  run_handler. rewrite Hs; simpl. rewrite Hto, Hc.
  destruct (truthy (msg_id md)), (truthy_number (msg_timestamp md)); simpl;
    case_truthy; simpl; rewrite <- ?app_assoc, drop_app_length;
    first [ exists 0%Z, 0%Z; eexists; reflexivity
          | do 3 eexists; reflexivity ].
Qed.

Lemma handleMessageSend_identified_no_auth_error socket senderData messageData w :
  JsMap.get socket (userSockets (router w)) = Some senderData ->
  socket_emit socket (error "Not authenticated")
    ∉ emitted_by (handleMessageSend oracle socket messageData) w.
Proof.
  intros Hs. unfold emitted_by, handleMessageSend. run_handler.
  rewrite Hs; simpl.
  assert (Hone : forall txt, txt <> "Not authenticated" ->
            socket_emit socket (error "Not authenticated")
              ∉ drop (length (outbox w))
                     (outbox w ++ [socket_emit socket (error txt)])).
  { intros txt Htxt. rewrite drop_app_length.
    intros Hin. apply list_elem_of_singleton in Hin. congruence. }
  destruct messageData as [md|]; simpl; [|by apply Hone].
  destruct (truthy (msg_to md)); [|by apply Hone].
  destruct (truthy (msg_encryptedContent md)); [|by apply Hone].
  destruct (truthy (msg_id md)), (truthy_number (msg_timestamp md)); simpl;
    case_truthy; simpl; rewrite <- ?app_assoc, drop_app_length;
    intros Hin;
    repeat (apply elem_of_cons in Hin as [Hin|Hin]; [discriminate|]);
    by apply elem_of_nil in Hin.
Qed.

(** *** typing *)

Lemma handleTyping_unidentified socket typingData w :
  JsMap.get socket (userSockets (router w)) = None ->
  exec (handleTyping socket typingData) w = w.
Proof.
  intros Hs. unfold handleTyping. run_handler. by rewrite Hs.
Qed.

Lemma handleTyping_absent socket td w :
  truthy (get_maybe (typ_to td) (connectedUsers (router w))) = None ->
  exec (handleTyping socket (Some td)) w = w.
Proof.
  intros Hr. unfold handleTyping. run_handler.
  destruct (JsMap.get socket _); simpl; [|done]. by rewrite Hr.
Qed.

Lemma handleTyping_forwarded socket senderData td recipientSocketId w :
  JsMap.get socket (userSockets (router w)) = Some senderData ->
  truthy (get_maybe (typ_to td) (connectedUsers (router w)))
    = Some recipientSocketId ->
  exec (handleTyping socket (Some td)) w =
  mkWorld (router w)
          (outbox w ++ [io_to_emit recipientSocketId
                          (userTyping (username senderData) (typ_isTyping td))])
          (clock_reads w) (random_reads w).
Proof.
  intros Hs Hr. unfold handleTyping. run_handler.
  rewrite Hs; simpl. by rewrite Hr.
Qed.

(** *** Invariants of the tables along a run *)

Lemma step_router_cases w socket e :
  router (step oracle w (socket, e)) = router w
  \/ (exists user now,
        user <> "" /\
        router (step oracle w (socket, e)) =
        mkHandler (JsMap.set user socket (connectedUsers (router w)))
                  (JsMap.set socket (mkUserData user now)
                             (userSockets (router w))))
  \/ (exists userData,
        router (step oracle w (socket, e)) =
        mkHandler (JsMap.delete (username userData) (connectedUsers (router w)))
                  (JsMap.delete socket (userSockets (router w)))).
Proof.
  unfold step; destruct e as [authData|md|cd|td| |]; simpl.
  - destruct authData as [ad|]; [|by left].
    destruct (truthy (auth_username ad)) as [user|] eqn:Hu.
    + right; left. exists user, (Date_now oracle (clock_reads w)).
      apply truthy_Some_inv in Hu as Hu'. split; [apply Hu'|].
      by rewrite (handleAuthentication_bound _ _ user).
    + left. by rewrite handleAuthentication_required.
  - left. apply handleMessageSend_router.
  - left. apply handleMessageReceived_router.
  - left. apply handleTyping_router.
  - destruct (JsMap.get socket (userSockets (router w))) as [ud|] eqn:Hs.
    + right; right. exists ud.
      by rewrite (handleDisconnection_identified _ ud).
    + left. by rewrite handleDisconnection_unidentified.
  - by left.
Qed.

Lemma step_tables_nodup w se :
  tables_nodup (router w) -> tables_nodup (router (step oracle w se)).
Proof.
  destruct se as [socket e]. intros [Hcu Hus].
  destruct (step_router_cases w socket e)
    as [-> | [(user & now & _ & ->) | (ud & ->)]]; [done | |]; split; simpl.
  - by apply JsMapFacts.NoDup_keys_set.
  - by apply JsMapFacts.NoDup_keys_set.
  - by apply JsMapFacts.NoDup_keys_delete.
  - by apply JsMapFacts.NoDup_keys_delete.
Qed.

Lemma step_handles_nonempty w (socket : SocketId) e :
  socket <> "" ->
  handles_nonempty (router w) ->
  handles_nonempty (router (step oracle w (socket, e))).
Proof.
  intros Hsock Hw.
  destruct (step_router_cases w socket e)
    as [-> | [(user & now & _ & ->) | (ud & ->)]]; [done | |];
    unfold handles_nonempty; simpl.
  - by apply JsMapFacts.get_set_value.
  - by apply JsMapFacts.get_delete_value.
Qed.

Lemma run_trace_tables_nodup tr w :
  tables_nodup (router w) -> tables_nodup (router (run_trace oracle tr w)).
Proof.
  revert w. induction tr as [|se tr IH]; intros w Hw; simpl; [done|].
  apply IH. by apply step_tables_nodup.
Qed.

Lemma run_trace_handles_nonempty tr w :
  valid_socket_ids tr = true ->
  handles_nonempty (router w) ->
  handles_nonempty (router (run_trace oracle tr w)).
Proof.
  revert w. induction tr as [|[socket e] tr IH]; intros w Hv Hw; simpl; [done|].
  simpl in Hv. apply andb_true_iff in Hv as [Hs Hv].
  apply IH; [done|]. apply step_handles_nonempty; [|done].
  apply negb_true_iff in Hs. by apply String.eqb_neq.
Qed.

Lemma initial_tables_nodup : tables_nodup (router initial_world).
Proof. split; apply NoDup_nil_2. Qed.

Lemma initial_handles_nonempty : handles_nonempty (router initial_world).
Proof. intros user h. simpl. done. Qed.

End RouterFacts.

(** ** Properties of the router *)

Lemma isUserOnline_reads (user : string) (w : World) :
  isUserOnline user w = Ok (JsMap.has user (connectedUsers (router w))) w.
Proof. reflexivity. Qed.

Lemma has_false_of_get_None (user : string) (m : list (string * SocketId)) :
  JsMap.get user m = None -> JsMap.has user m = false.
Proof. intros Hg. unfold JsMap.has. by rewrite Hg. Qed.

Lemma run_two_identifies oracle (w : World) (H1 H2 : SocketId) (A B : string) :
  A <> "" -> B <> "" ->
  run_trace oracle [(H1, identify A); (H2, identify B)] w =
  mkWorld
    (mkHandler
       (JsMap.set B H2 (JsMap.set A H1 (connectedUsers (router w))))
       (JsMap.set H2 (mkUserData B (Date_now oracle (S (clock_reads w))))
          (JsMap.set H1 (mkUserData A (Date_now oracle (clock_reads w)))
             (userSockets (router w)))))
    ((outbox w ++ [socket_emit H1 (authenticated true A)])
       ++ [socket_emit H2 (authenticated true B)])
    (S (S (clock_reads w))) (random_reads w).
Proof.
  intros HA HB. unfold run_trace; simpl.
  rewrite (identify_bound oracle H1 A w HA).
  by rewrite (identify_bound oracle H2 B _ HB).
Qed.

(** C1, as the code has it: the transport close of a handle [H] that was
    identified as [A] removes the identity-to-handle entry of [A] and the
    handle-to-identity entry of [H] whatever handle [A] is bound to at
    that moment, touches no other entry and emits nothing.  In
    particular, after identify(A) on [H1] and identify(A) on another
    handle [H2], the disconnect of [H1] removes the binding of [A] to
    [H2], and "is A online" answers false while [H2] is still recorded
    as [A]. *)
Theorem C1_disconnect_removes_binding_unguarded
    (oracle : Oracle) (w0 : World) (H1 H2 : SocketId) (A : string) :
  H1 <> H2 -> A <> "" ->
  (forall (w : World) (H : SocketId) (userData : UserData),
      JsMap.get H (userSockets (router w)) = Some userData ->
      let w' := step oracle w (H, disconnect) in
      handle_of w' (username userData) = None
      /\ identity_of w' H = None
      /\ (forall user, user <> username userData ->
                       handle_of w' user = handle_of w user)
      /\ (forall h, h <> H -> identity_of w' h = identity_of w h)
      /\ outbox w' = outbox w)
  /\ (let w2 := run_trace oracle [(H1, identify A); (H2, identify A)] w0 in
      let w3 := step oracle w2 (H1, disconnect) in
      identity_of w2 H1 = Some A
      /\ handle_of w2 A = Some H2
      /\ handle_of w3 A = None
      /\ identity_of w3 H2 = Some A
      /\ isUserOnline A w3 = Ok false w3).
Proof.
  intros Hne HA.
  assert (Hgen : forall (w : World) (H : SocketId) (userData : UserData),
      JsMap.get H (userSockets (router w)) = Some userData ->
      let w' := step oracle w (H, disconnect) in
      handle_of w' (username userData) = None
      /\ identity_of w' H = None
      /\ (forall user, user <> username userData ->
                       handle_of w' user = handle_of w user)
      /\ (forall h, h <> H -> identity_of w' h = identity_of w h)
      /\ outbox w' = outbox w).
  { intros w H ud Hs w'. subst w'. unfold step; simpl.
    rewrite (handleDisconnection_identified H ud w Hs).
    unfold handle_of, identity_of; simpl.
    rewrite !JsMapFacts.get_delete_eq. repeat split.
    - intros user Hu. rewrite JsMapFacts.get_delete_ne; [done | congruence].
    - intros h Hh. rewrite JsMapFacts.get_delete_ne; [done | congruence]. }
  split; [exact Hgen|].
  intros w2 w3.
  assert (Hid1 : JsMap.get H1 (userSockets (router w2))
                 = Some (mkUserData A (Date_now oracle (clock_reads w0)))).
  { subst w2. rewrite run_two_identifies by done. simpl.
    rewrite JsMapFacts.get_set_ne by congruence.
    apply JsMapFacts.get_set_eq. }
  assert (Hid2 : identity_of w2 H2 = Some A).
  { subst w2. rewrite run_two_identifies by done.
    unfold identity_of; simpl. by rewrite JsMapFacts.get_set_eq. }
  assert (Hh : handle_of w2 A = Some H2).
  { subst w2. rewrite run_two_identifies by done.
    unfold handle_of; simpl. by rewrite JsMapFacts.get_set_eq. }
  destruct (Hgen w2 H1 _ Hid1) as (Hgone & _ & _ & Hkeep & _).
  simpl in Hgone. fold w3 in Hgone, Hkeep.
  repeat split.
  - unfold identity_of. by rewrite Hid1.
  - exact Hh.
  - exact Hgone.
  - rewrite Hkeep by congruence. exact Hid2.
  - rewrite isUserOnline_reads. f_equal.
    by apply has_false_of_get_None.
Qed.

Lemma C1_disconnect_removes_binding_unguarded_witness :
  let w2 := run_trace sample_oracle
              [("h1", identify "alice"); ("h2", identify "alice")]
              initial_world in
  let w3 := step sample_oracle w2 ("h1", disconnect) in
  handle_of w2 "alice" = Some "h2" /\ isUserOnline "alice" w3 = Ok false w3.
Proof.
  intros w2 w3.
  destruct (C1_disconnect_removes_binding_unguarded sample_oracle
              initial_world "h1" "h2" "alice") as [Hgen Hsc];
    [discriminate | discriminate |].
  destruct (Hgen w2 "h1" (mkUserData "alice" 1700000000000%Z) eq_refl)
    as (_ & _ & _ & _ & _).
  destruct Hsc as (_ & Hh & _ & _ & Hq). split; [exact Hh | exact Hq].
Defined.

(** C1, as stated, fails: "alice" identifies on h1, then on h2; when the
    close of h1 is handled the identity-to-handle table maps "alice" to
    h2, not to h1, and yet the binding is removed and "is alice online"
    answers false. *)
Lemma C1_stale_disconnect_evicts_live_binding :
  let w2 := run_trace sample_oracle
              [("h1", identify "alice"); ("h2", identify "alice")]
              initial_world in
  let w3 := step sample_oracle w2 ("h1", disconnect) in
  handle_of w2 "alice" = Some "h2"
  /\ handle_of w3 "alice" = None
  /\ isUserOnline "alice" w3 <> Ok true w3.
Proof. vm_compute. repeat split; discriminate. Qed.

Lemma nodup_one_handle_forward (w : World) :
  tables_nodup (router w) -> one_handle_per_identity_forward w.
Proof.
  intros [Hcu _] user h h' Hin Hin'.
  apply (JsMapFacts.elem_of_get _ _ _ Hcu) in Hin, Hin'. congruence.
Qed.

(** C2, as the code has it: along every sequence of identify calls on a
    freshly constructed router the identity-to-handle table holds at
    most one handle per identity; an identify for an identity that is
    already bound to another handle replaces that binding, and all it
    emits is the acknowledgement on the identifying connection: no
    error, and nothing on the evicted connection.  (The handle-to-identity
    table is left out: the entry of the evicted handle stays.) *)
Theorem C2_identify_last_writer_wins
    (oracle : Oracle) (calls : list (SocketId * option AuthData))
    (H Hold : SocketId) (A : string) :
  let w := run_trace oracle (identify_calls calls) initial_world in
  let w' := step oracle w (H, identify A) in
  one_handle_per_identity_forward w
  /\ (A <> "" -> handle_of w A = Some Hold -> Hold <> H ->
      one_handle_per_identity_forward w'
      /\ handle_of w' A = Some H
      /\ (forall h, (A, h) ∈ connectedUsers (router w') -> h = H)
      /\ emitted_by (on oracle H (identify A)) w
         = [socket_emit H (authenticated true A)]
      /\ events_on Hold (emitted_by (on oracle H (identify A)) w) = []).
Proof.
  intros w w'.
  assert (Hnd : tables_nodup (router w)).
  { apply run_trace_tables_nodup, initial_tables_nodup. }
  split; [by apply nodup_one_handle_forward|].
  intros HA Hbound Hne.
  assert (Hnd' : tables_nodup (router w')).
  { by apply step_tables_nodup. }
  assert (Hh : handle_of w' A = Some H).
  { subst w'. rewrite identify_bound by done.
    unfold handle_of; simpl. apply JsMapFacts.get_set_eq. }
  assert (Hem : emitted_by (on oracle H (identify A)) w
                = [socket_emit H (authenticated true A)]).
  { apply emitted_by_app.
    change (exec (on oracle H (identify A)) w)
      with (step oracle w (H, identify A)).
    by rewrite identify_bound. }
  split; [by apply nodup_one_handle_forward|].
  split; [exact Hh|]. split; [|split; [exact Hem|]].
  - intros h Hin. apply (nodup_one_handle_forward w' Hnd' A); [done|].
    by apply JsMapFacts.get_Some_elem_of.
  - rewrite Hem. by apply events_on_other.
Qed.

Lemma C2_identify_last_writer_wins_witness :
  let w := run_trace sample_oracle
             (identify_calls [("h1", Some (mkAuthData (Some "alice")))])
             initial_world in
  handle_of (step sample_oracle w ("h2", identify "alice")) "alice" = Some "h2"
  /\ events_on "h1" (emitted_by (on sample_oracle "h2" (identify "alice")) w)
     = [].
Proof.
  intros w.
  destruct (C2_identify_last_writer_wins sample_oracle
              [("h1", Some (mkAuthData (Some "alice")))] "h2" "h1" "alice")
    as (_ & Hrebind).
  destruct Hrebind as (_ & Hh & _ & _ & Hev);
    [discriminate | reflexivity | discriminate |].
  split; [exact Hh | exact Hev].
Defined.

(** C2, as stated, fails in the handle-to-identity direction: after
    "alice" identifies on h1 and then on h2, both handles map to
    "alice". *)
Lemma C2_two_handles_carry_one_identity :
  let w := run_trace sample_oracle
             (identify_calls [("h1", Some (mkAuthData (Some "alice")));
                              ("h2", Some (mkAuthData (Some "alice")))])
             initial_world in
  identity_of w "h1" = Some "alice"
  /\ identity_of w "h2" = Some "alice"
  /\ ~ one_handle_per_identity_backward w.
Proof.
  intros w. split; [reflexivity|]. split; [reflexivity|].
  intros Hone. specialize (Hone "alice" "h1" "h2" eq_refl eq_refl).
  discriminate.
Qed.

(** C3: after identify(A) on [HA] and identify(B) on another connection
    [HB], a sendMessage from [HA] to B with a non-empty payload [P]
    emits exactly two events: one 'message' to the connection of B with
    content [P] and from [A], and one 'messageDelivered' with status
    'delivered' on the connection of A.  Both carry the same id: the
    caller's [m] when it supplied one, else the one token generated for
    this call. *)
Theorem C3_send_round_trip
    (oracle : Oracle) (w : World) (HA HB : SocketId) (A B P : string)
    (m : option string) (ts : option Z) :
  HA <> HB -> HB <> "" -> A <> "" -> B <> "" -> P <> "" ->
  let w2 := run_trace oracle [(HA, identify A); (HB, identify B)] w in
  let send := handleMessageSend oracle HA
                (Some (mkMessageData (Some B) (Some P) ts m)) in
  let mid := resolved_id oracle m w2 in
  exists timestamp deliveredAt now : Z,
    emitted_by send w2 =
      [io_to_emit HB (message mid A B P timestamp deliveredAt);
       socket_emit HA (messageDelivered mid "delivered" None now)]
    /\ events_on HB (emitted_by send w2)
       = [message mid A B P timestamp deliveredAt]
    /\ events_on HA (emitted_by send w2)
       = [messageDelivered mid "delivered" None now]
    /\ (forall i, m = Some i -> i <> "" -> mid = i)
    /\ (truthy m = None ->
        mid = ("msg_" ++ pretty (Date_now oracle (clock_reads w2)) ++ "_"
                ++ String.substring 2 9
                     (Math_random_base36 oracle (random_reads w2)))%string).
Proof.
  intros Hne HHB HA_ HB_ HP w2 send mid.
  assert (Hsender : JsMap.get HA (userSockets (router w2))
                    = Some (mkUserData A (Date_now oracle (clock_reads w)))).
  { subst w2. rewrite run_two_identifies by done. simpl.
    rewrite JsMapFacts.get_set_ne by congruence.
    apply JsMapFacts.get_set_eq. }
  assert (Hrecipient : JsMap.get B (connectedUsers (router w2)) = Some HB).
  { subst w2. rewrite run_two_identifies by done. simpl.
    apply JsMapFacts.get_set_eq. }
  destruct (handleMessageSend_routed oracle HA _
              (mkMessageData (Some B) (Some P) ts m) B P w2 Hsender)
    as (timestamp & deliveredAt & now & Hem).
  { simpl. by apply truthy_nonempty. }
  { simpl. by apply truthy_nonempty. }
  rewrite Hrecipient, (truthy_nonempty HB HHB) in Hem. simpl in Hem.
  fold send mid in Hem.
  exists timestamp, deliveredAt, now. rewrite Hem.
  split; [done|]. unfold events_on. repeat split.
  - rewrite filter_cons_True by done.
    rewrite filter_cons_False; [done | simpl; congruence].
  - rewrite filter_cons_False by (simpl; congruence).
    by rewrite filter_cons_True.
  - intros i -> Hi. unfold mid, resolved_id. by rewrite truthy_nonempty.
  - intros Hm. unfold mid, resolved_id. by rewrite Hm.
Qed.

Lemma C3_send_round_trip_witness :
  let w2 := run_trace sample_oracle
              [("h1", identify "alice"); ("h2", identify "bob")]
              initial_world in
  exists timestamp deliveredAt now : Z,
    emitted_by (handleMessageSend sample_oracle "h1"
                  (Some (mkMessageData (Some "bob") (Some "ct1") None
                                       (Some "m1")))) w2 =
      [io_to_emit "h2" (message "m1" "alice" "bob" "ct1" timestamp deliveredAt);
       socket_emit "h1" (messageDelivered "m1" "delivered" None now)].
Proof.
  intros w2.
  destruct (C3_send_round_trip sample_oracle initial_world "h1" "h2"
              "alice" "bob" "ct1" (Some "m1") None)
    as (timestamp & deliveredAt & now & Hem & _);
    [discriminate | discriminate | discriminate | discriminate
    | discriminate |].
  exists timestamp, deliveredAt, now. exact Hem.
Defined.

(** C4: when an identified sender sends a message (recipient and payload
    present) whose recipient is absent from the identity-to-handle
    table, the router emits exactly one 'messageDelivered' receipt on
    the sender's connection, with status 'failed' and the error text
    'Recipient is offline'; nothing reaches any other connection and
    both tables are unchanged. *)
Theorem C4_recipient_offline
    (oracle : Oracle) (w : World) (H : SocketId) (senderData : UserData)
    (md : MessageData) (to content : string) :
  JsMap.get H (userSockets (router w)) = Some senderData ->
  truthy (msg_to md) = Some to ->
  truthy (msg_encryptedContent md) = Some content ->
  handle_of w to = None ->
  let send := handleMessageSend oracle H (Some md) in
  (exists now : Z,
      emitted_by send w =
        [socket_emit H
           (messageDelivered (resolved_id oracle (msg_id md) w) "failed"
                             (Some "Recipient is offline") now)])
  /\ (forall H', H' <> H -> events_on H' (emitted_by send w) = [])
  /\ router (exec send w) = router w.
Proof.
  intros Hs Hto Hc Habsent send.
  destruct (handleMessageSend_routed oracle H senderData md to content w
              Hs Hto Hc) as (timestamp & deliveredAt & now & Hem).
  unfold handle_of in Habsent. rewrite Habsent in Hem. simpl in Hem.
  fold send in Hem. rewrite Hem. split; [by exists now|]. split.
  - intros H' Hne. by apply events_on_other.
  - apply handleMessageSend_router.
Qed.

Lemma C4_recipient_offline_witness :
  let w := run_trace sample_oracle [("h1", identify "alice")] initial_world in
  let send := handleMessageSend sample_oracle "h1"
                (Some (mkMessageData (Some "ghost") (Some "ct1") None
                                     (Some "m1"))) in
  (exists now : Z,
      emitted_by send w =
        [socket_emit "h1"
           (messageDelivered "m1" "failed" (Some "Recipient is offline") now)])
  /\ router (exec send w) = router w.
Proof.
  intros w send.
  destruct (C4_recipient_offline sample_oracle w "h1"
              (mkUserData "alice" 1700000000000%Z)
              (mkMessageData (Some "ghost") (Some "ct1") None (Some "m1"))
              "ghost" "ct1") as (Hem & _ & Hr);
    [reflexivity | reflexivity | reflexivity | reflexivity |].
  split; [exact Hem | exact Hr].
Defined.

(** C5: a sendMessage from a connection that is not identified emits the
    'Not authenticated' error event on that same connection and nothing
    else, whatever the payload: no event reaches another connection and
    neither table changes. *)
Theorem C5_send_unidentified
    (oracle : Oracle) (w : World) (H : SocketId)
    (messageData : option MessageData) :
  identity_of w H = None ->
  let send := handleMessageSend oracle H messageData in
  emitted_by send w = [socket_emit H (error "Not authenticated")]
  /\ (forall H', H' <> H -> events_on H' (emitted_by send w) = [])
  /\ router (exec send w) = router w.
Proof.
  intros Hid send.
  assert (Hs : JsMap.get H (userSockets (router w)) = None).
  { unfold identity_of in Hid.
    by destruct (JsMap.get H (userSockets (router w))). }
  assert (Hem : emitted_by send w = [socket_emit H (error "Not authenticated")]).
  { apply emitted_by_app. unfold send.
    by rewrite handleMessageSend_unauthenticated. }
  rewrite Hem. split; [done|]. split.
  - intros H' Hne. by apply events_on_other.
  - apply handleMessageSend_router.
Qed.

Lemma C5_send_unidentified_witness :
  let w := run_trace sample_oracle [("h1", identify "alice")] initial_world in
  let send := handleMessageSend sample_oracle "h9"
                (Some (mkMessageData (Some "alice") (Some "ct1") None None)) in
  emitted_by send w = [socket_emit "h9" (error "Not authenticated")]
  /\ router (exec send w) = router w.
Proof.
  intros w send.
  destruct (C5_send_unidentified sample_oracle w "h9"
              (Some (mkMessageData (Some "alice") (Some "ct1") None None)))
    as (Hem & _ & Hr); [reflexivity|].
  split; [exact Hem | exact Hr].
Defined.

(** C6, as the code has it: for every identify request on a connection
    [H]: when the request carries a payload object whose identity is
    missing or empty, the router emits the 'authError' event with reason
    'Username is required' and changes neither table; when the request
    carries no payload object at all, it emits 'authError' with reason
    'Authentication failed' and changes neither table; when the identity
    is a non-empty string, it binds handle -> identity and
    identity -> handle and emits the 'authenticated' acknowledgement
    carrying that identity on the same connection.  In every case the
    event is the only one emitted. *)
Theorem C6_identify_contract
    (oracle : Oracle) (w : World) (H : SocketId)
    (authData : option AuthData) :
  let idf := handleAuthentication oracle H authData in
  (authData = None ->
     emitted_by idf w = [socket_emit H (authError "Authentication failed")]
     /\ router (exec idf w) = router w)
  /\ (forall ad : AuthData,
        authData = Some ad ->
        auth_username ad = None \/ auth_username ad = Some "" ->
        emitted_by idf w = [socket_emit H (authError "Username is required")]
        /\ router (exec idf w) = router w)
  /\ (forall (ad : AuthData) (A : string),
        authData = Some ad -> auth_username ad = Some A -> A <> "" ->
        identity_of (exec idf w) H = Some A
        /\ handle_of (exec idf w) A = Some H
        /\ emitted_by idf w = [socket_emit H (authenticated true A)]).
Proof.
  intros idf. split; [|split].
  - intros ->. unfold idf. rewrite handleAuthentication_thrown.
    split; [|done]. apply emitted_by_app.
    by rewrite handleAuthentication_thrown.
  - intros ad -> Hmissing.
    assert (Hu : truthy (auth_username ad) = None).
    { by destruct Hmissing as [-> | ->]. }
    unfold idf. rewrite (handleAuthentication_required oracle H ad w Hu).
    split; [|done]. apply emitted_by_app.
    by rewrite (handleAuthentication_required oracle H ad w Hu).
  - intros ad A -> HA Hne.
    assert (Hu : truthy (auth_username ad) = Some A).
    { rewrite HA. by apply truthy_nonempty. }
    unfold idf. rewrite (handleAuthentication_bound oracle H ad A w Hu).
    unfold identity_of, handle_of; simpl.
    rewrite !JsMapFacts.get_set_eq. repeat split.
    apply emitted_by_app.
    by rewrite (handleAuthentication_bound oracle H ad A w Hu).
Qed.

Lemma C6_identify_contract_witness :
  (let idf := handleAuthentication sample_oracle "h1" None in
   emitted_by idf initial_world
   = [socket_emit "h1" (authError "Authentication failed")]
   /\ router (exec idf initial_world) = router initial_world)
  /\ (let idf := handleAuthentication sample_oracle "h1"
                   (Some (mkAuthData (Some ""))) in
      emitted_by idf initial_world
      = [socket_emit "h1" (authError "Username is required")]
      /\ router (exec idf initial_world) = router initial_world)
  /\ (let idf := handleAuthentication sample_oracle "h1"
                   (Some (mkAuthData (Some "alice"))) in
      identity_of (exec idf initial_world) "h1" = Some "alice"
      /\ handle_of (exec idf initial_world) "alice" = Some "h1"
      /\ emitted_by idf initial_world
         = [socket_emit "h1" (authenticated true "alice")]).
Proof.
  destruct (C6_identify_contract sample_oracle initial_world "h1" None)
    as (Hnone & _ & _).
  destruct (C6_identify_contract sample_oracle initial_world "h1"
              (Some (mkAuthData (Some "")))) as (_ & Hempty & _).
  destruct (C6_identify_contract sample_oracle initial_world "h1"
              (Some (mkAuthData (Some "alice")))) as (_ & _ & Hbound).
  split; [|split].
  - apply Hnone. reflexivity.
  - apply (Hempty (mkAuthData (Some ""))); [reflexivity | by right].
  - apply (Hbound (mkAuthData (Some "alice")) "alice");
      [reflexivity | reflexivity | discriminate].
Defined.

(** C6, as stated, fails for an identify request whose identity is
    missing because the request carries no payload object: the router
    answers 'authError' with reason 'Authentication failed', not
    'Username is required'. *)
Lemma C6_payloadless_identify_gets_other_reason :
  let idf := handleAuthentication sample_oracle "h1" None in
  emitted_by idf initial_world
  = [socket_emit "h1" (authError "Authentication failed")]
  /\ emitted_by idf initial_world
     <> [socket_emit "h1" (authError "Username is required")].
Proof. vm_compute. split; [reflexivity | discriminate]. Qed.

(** C7, as the code has it: the identity recorded for a connection is
    the one of its latest successful identify.  An identify with a
    non-empty identity [B] on a handle already identified as [A] rebinds
    the handle to [B]; an event that is neither a successful identify
    nor the transport close of that handle, and any event arriving on
    another connection, leaves the identity of the handle as it is. *)
Theorem C7_identity_follows_latest_identify
    (oracle : Oracle) (w : World) (H : SocketId) (A B : string) :
  identity_of w H = Some A -> B <> "" ->
  identity_of (step oracle w (H, identify B)) H = Some B
  /\ (forall e : ClientEvent,
        rebinds e = false -> identity_of (step oracle w (H, e)) H = Some A)
  /\ (forall (H' : SocketId) (e : ClientEvent),
        H' <> H -> identity_of (step oracle w (H', e)) H = Some A).
Proof.
  intros Hid HB. split; [|split].
  - rewrite identify_bound by done. unfold identity_of; simpl.
    by rewrite JsMapFacts.get_set_eq.
  - intros e He.
    assert (Hr : router (step oracle w (H, e)) = router w).
    { unfold step; destruct e as [[ad|]|md|cd|td| |]; simpl; try done.
      - simpl in He. destruct (truthy (auth_username ad)) eqn:Hu; [done|].
        by rewrite handleAuthentication_required.
      - apply handleMessageSend_router.
      - apply handleMessageReceived_router.
      - apply handleTyping_router. }
    unfold identity_of in *. by rewrite Hr.
  - intros H' e Hne. rewrite <- Hid. unfold identity_of. f_equal.
    destruct (step_router_cases oracle w H' e)
      as [-> | [(user & now & _ & ->) | (ud & ->)]]; [done | |]; simpl.
    + by apply JsMapFacts.get_set_ne.
    + by apply JsMapFacts.get_delete_ne.
Qed.

Lemma C7_identity_follows_latest_identify_witness :
  let w := step sample_oracle initial_world ("h1", identify "alice") in
  identity_of w "h1" = Some "alice"
  /\ identity_of (step sample_oracle w ("h1", identify "bob")) "h1" = Some "bob"
  /\ identity_of (step sample_oracle w ("h1", typing None)) "h1" = Some "alice"
  /\ identity_of (step sample_oracle w ("h2", disconnect)) "h1" = Some "alice".
Proof.
  intros w.
  destruct (C7_identity_follows_latest_identify sample_oracle w "h1"
              "alice" "bob") as (Hre & Hsame & Hother);
    [reflexivity | discriminate |].
  split; [reflexivity|]. split; [exact Hre|]. split.
  - apply Hsame. reflexivity.
  - apply Hother. discriminate.
Defined.

(** C7, as stated, fails: "h1" identifies as "alice", then a second
    identify on the same connection changes its identity to "bob". *)
Lemma C7_identity_is_not_immutable :
  let w1 := step sample_oracle initial_world ("h1", identify "alice") in
  let w2 := step sample_oracle w1 ("h1", identify "bob") in
  identity_of w1 "h1" = Some "alice"
  /\ identity_of w2 "h1" = Some "bob"
  /\ identity_of w2 "h1" <> identity_of w1 "h1".
Proof. vm_compute. repeat split; discriminate. Qed.

(** C8: at every state the router reaches, a typing event from a
    connection that is not identified, or towards a recipient that is
    not in the identity-to-handle table, leaves the world as it is: no
    event on any connection, no error, no table change.  When the sender
    is identified as [A] and the recipient is connected on [HR], exactly
    one 'userTyping' event carrying [from = A] and the [isTyping] flag
    is forwarded to [HR], and the tables are unchanged. *)
Theorem C8_typing_relay
    (oracle : Oracle) (tr : list (SocketId * ClientEvent))
    (H : SocketId) (td : TypingData) :
  valid_socket_ids tr = true ->
  let w := run_trace oracle tr initial_world in
  (forall typingData : option TypingData,
      identity_of w H = None ->
      exec (handleTyping H typingData) w = w
      /\ emitted_by (handleTyping H typingData) w = [])
  /\ (get_maybe (typ_to td) (connectedUsers (router w)) = None ->
      exec (handleTyping H (Some td)) w = w
      /\ emitted_by (handleTyping H (Some td)) w = [])
  /\ (forall (A to : string) (HR : SocketId),
        identity_of w H = Some A ->
        typ_to td = Some to ->
        handle_of w to = Some HR ->
        emitted_by (handleTyping H (Some td)) w
        = [io_to_emit HR (userTyping A (typ_isTyping td))]
        /\ events_on HR (emitted_by (handleTyping H (Some td)) w)
           = [userTyping A (typ_isTyping td)]
        /\ (forall H', H' <> HR ->
                       events_on H' (emitted_by (handleTyping H (Some td)) w)
                       = [])
        /\ router (exec (handleTyping H (Some td)) w) = router w).
Proof.
  intros Hvalid w. split; [|split].
  - intros typingData Hid.
    assert (Hs : JsMap.get H (userSockets (router w)) = None).
    { unfold identity_of in Hid.
      by destruct (JsMap.get H (userSockets (router w))). }
    pose proof (handleTyping_unidentified H typingData w Hs) as Hex.
    split; [exact Hex | by apply emitted_by_same].
  - intros Habsent.
    assert (Hex : exec (handleTyping H (Some td)) w = w).
    { apply handleTyping_absent. by rewrite Habsent. }
    split; [exact Hex | by apply emitted_by_same].
  - intros A to HR Hid Hto Hrecipient.
    unfold identity_of in Hid.
    destruct (JsMap.get H (userSockets (router w))) as [sd|] eqn:Hs;
      [|done].
    simpl in Hid. injection Hid as <-.
    assert (HHR : HR <> "").
    { apply (run_trace_handles_nonempty oracle tr initial_world Hvalid
               initial_handles_nonempty to HR Hrecipient). }
    assert (Hr : truthy (get_maybe (typ_to td) (connectedUsers (router w)))
                 = Some HR).
    { rewrite Hto. simpl. unfold handle_of in Hrecipient.
      rewrite Hrecipient. by apply truthy_nonempty. }
    pose proof (handleTyping_forwarded H sd td HR w Hs Hr) as Hex.
    assert (Hem : emitted_by (handleTyping H (Some td)) w
                  = [io_to_emit HR (userTyping (username sd) (typ_isTyping td))]).
    { apply emitted_by_app. by rewrite Hex. }
    rewrite Hem. split; [done|]. split; [|split].
    + unfold events_on. by rewrite filter_cons_True.
    + intros H' Hne. unfold events_on.
      rewrite filter_cons_False; [done | simpl; congruence].
    + by rewrite Hex.
Qed.

Lemma C8_typing_relay_witness :
  let w := run_trace sample_oracle
             [("h1", identify "alice"); ("h2", identify "bob")]
             initial_world in
  let td := mkTypingData (Some "bob") (Some true) in
  exec (handleTyping "h9" (Some td)) w = w
  /\ exec (handleTyping "h1" (Some (mkTypingData (Some "carol") (Some true)))) w
     = w
  /\ emitted_by (handleTyping "h1" (Some td)) w
     = [io_to_emit "h2" (userTyping "alice" (Some true))].
Proof.
  intros w td.
  destruct (C8_typing_relay sample_oracle
              [("h1", identify "alice"); ("h2", identify "bob")] "h9" td)
    as (Hunid & _ & _); [reflexivity|].
  destruct (C8_typing_relay sample_oracle
              [("h1", identify "alice"); ("h2", identify "bob")] "h1"
              (mkTypingData (Some "carol") (Some true)))
    as (_ & Habsent & _); [reflexivity|].
  destruct (C8_typing_relay sample_oracle
              [("h1", identify "alice"); ("h2", identify "bob")] "h1" td)
    as (_ & _ & Hfwd); [reflexivity|].
  split; [apply (Hunid (Some td)); reflexivity|].
  split; [apply Habsent; reflexivity|].
  apply (Hfwd "alice" "bob" "h2"); reflexivity.
Defined.

(** C9: at every state the router reaches, the three queries read the
    identity-to-handle table and agree: the count is the length of the
    list of connected usernames, which has no duplicate and is the list
    of keys of the table; "is this identity connected" is true exactly
    for the identities in that list; no query changes the world.  After
    identify("alice") and identify("bob") the presence-status route
    reports count 2 and the usernames alice, bob. *)
Theorem C9_introspection_agrees
    (oracle : Oracle) (tr : list (SocketId * ClientEvent)) (H1 H2 : SocketId) :
  let w := run_trace oracle tr initial_world in
  (exists (n : nat) (names : list string),
      getConnectedUsersCount w = Ok n w
      /\ getConnectedUsernames w = Ok names w
      /\ names = JsMap.keys (connectedUsers (router w))
      /\ n = length names
      /\ NoDup names
      /\ (forall user : string,
            isUserOnline user w = Ok (bool_decide (user ∈ names)) w)
      /\ (forall user : string,
            GET_websocket_user_status (Some w) user
            = (200, user_status_body true user (bool_decide (user ∈ names))))
      /\ GET_websocket_status (Some w)
         = (200, status_body true "active" n names))
  /\ GET_websocket_status
       (Some (run_trace oracle [(H1, identify "alice"); (H2, identify "bob")]
                        initial_world))
     = (200, status_body true "active" 2 ["alice"; "bob"]).
Proof.
  intros w. split.
  - exists (JsMap.size (connectedUsers (router w))),
           (JsMap.keys (connectedUsers (router w))).
    assert (Hon : forall user : string,
               JsMap.has user (connectedUsers (router w))
               = bool_decide (user ∈ JsMap.keys (connectedUsers (router w)))).
    { intros user. apply eq_true_iff_eq.
      rewrite bool_decide_eq_true. apply JsMapFacts.has_true_key. }
    split; [reflexivity|]. split; [reflexivity|]. split; [reflexivity|].
    split; [apply JsMapFacts.size_keys|]. split.
    + apply (run_trace_tables_nodup oracle tr initial_world
               initial_tables_nodup).
    + split; [|split; [|reflexivity]].
      * intros user. rewrite isUserOnline_reads. by rewrite Hon.
      * intros user. unfold GET_websocket_user_status.
        rewrite isUserOnline_reads. by rewrite Hon.
  - rewrite run_two_identifies by discriminate. simpl.
    destruct (decide ("bob" = "alice")) as [Heq|_]; [discriminate|].
    reflexivity.
Qed.

(** C10: after [H1] identifies as [A] and a different connection [H2]
    identifies as the same [A], the superseded handle [H1] is still
    recorded as [A] in the handle-to-identity table although the
    identity-to-handle table now gives [H2] for [A]; a sendMessage from
    [H1] is never answered by 'Not authenticated', and a well-formed one
    is routed with sender identity [A]. *)
Theorem C10_superseded_handle_still_sends
    (oracle : Oracle) (w : World) (H1 H2 : SocketId) (A : string)
    (md : MessageData) (to content : string) :
  H1 <> H2 -> A <> "" ->
  truthy (msg_to md) = Some to ->
  truthy (msg_encryptedContent md) = Some content ->
  let w2 := run_trace oracle [(H1, identify A); (H2, identify A)] w in
  let send := handleMessageSend oracle H1 (Some md) in
  let mid := resolved_id oracle (msg_id md) w2 in
  identity_of w2 H1 = Some A
  /\ handle_of w2 A = Some H2
  /\ (forall messageData : option MessageData,
        socket_emit H1 (error "Not authenticated")
          ∉ emitted_by (handleMessageSend oracle H1 messageData) w2)
  /\ exists timestamp deliveredAt now : Z,
       emitted_by send w2 =
       match truthy (handle_of w2 to) with
       | Some recipientSocketId =>
           [io_to_emit recipientSocketId
              (message mid A to content timestamp deliveredAt);
            socket_emit H1 (messageDelivered mid "delivered" None now)]
       | None =>
           [socket_emit H1
              (messageDelivered mid "failed" (Some "Recipient is offline") now)]
       end.
Proof.
  intros Hne HA Hto Hc w2 send mid.
  assert (Hs : JsMap.get H1 (userSockets (router w2))
               = Some (mkUserData A (Date_now oracle (clock_reads w)))).
  { subst w2. rewrite run_two_identifies by done. simpl.
    rewrite JsMapFacts.get_set_ne by congruence.
    apply JsMapFacts.get_set_eq. }
  split; [unfold identity_of; by rewrite Hs|]. split.
  { subst w2. rewrite run_two_identifies by done.
    unfold handle_of; simpl. apply JsMapFacts.get_set_eq. }
  split.
  { intros messageData.
    by apply (handleMessageSend_identified_no_auth_error oracle H1 _ _ w2 Hs). }
  exact (handleMessageSend_routed oracle H1 _ md to content w2 Hs Hto Hc).
Qed.

Lemma C10_superseded_handle_still_sends_witness :
  let w2 := run_trace sample_oracle
              [("h1", identify "alice"); ("h2", identify "alice")]
              initial_world in
  identity_of w2 "h1" = Some "alice"
  /\ handle_of w2 "alice" = Some "h2"
  /\ exists timestamp deliveredAt now : Z,
       emitted_by (handleMessageSend sample_oracle "h1"
                     (Some (mkMessageData (Some "alice") (Some "ct1") None
                                          (Some "m1")))) w2 =
       [io_to_emit "h2" (message "m1" "alice" "alice" "ct1" timestamp deliveredAt);
        socket_emit "h1" (messageDelivered "m1" "delivered" None now)].
Proof.
  intros w2.
  destruct (C10_superseded_handle_still_sends sample_oracle initial_world
              "h1" "h2" "alice"
              (mkMessageData (Some "alice") (Some "ct1") None (Some "m1"))
              "alice" "ct1")
    as (Hid & Hh & _ & Hsend);
    [discriminate | discriminate | reflexivity | reflexivity |].
  split; [exact Hid|]. split; [exact Hh | exact Hsend].
Defined.

(** ** Further properties of the router *)

Module JsMapOrder.
Section Order.
Context {K V : Type} `{EqDecision K}.
Implicit Types (k : K) (v : V) (m : list (K * V)).

Lemma set_absent k v m :
  JsMap.get k m = None -> JsMap.set k v m = m ++ [(k, v)].
Proof.
  induction m as [|[k' v'] m IH]; simpl; [done|].
  destruct (decide (k = k')); [done|]. intros Hg. by rewrite IH.
Qed.

Lemma keys_set_present k v v' m :
  JsMap.get k m = Some v' -> JsMap.keys (JsMap.set k v m) = JsMap.keys m.
Proof.
  induction m as [|[k0 v0] m IH]; simpl; [done|].
  destruct (decide (k = k0)) as [->|Hne]; simpl; [done|].
  intros Hg. unfold JsMap.keys in *. simpl. f_equal. by apply IH.
Qed.

Lemma delete_absent k m : JsMap.get k m = None -> JsMap.delete k m = m.
Proof.
  induction m as [|[k' v'] m IH]; simpl; [done|].
  destruct (decide (k = k')); [done|]. intros Hg. by rewrite IH.
Qed.

Lemma delete_set_absent k v m :
  JsMap.get k m = None -> JsMap.delete k (JsMap.set k v m) = m.
Proof.
  induction m as [|[k' v'] m IH]; simpl.
  - intros _. by rewrite decide_True.
  - destruct (decide (k = k')) as [->|Hne]; [done|]. simpl.
    rewrite decide_False by done. intros Hg. by rewrite IH.
Qed.

Lemma keys_delete_filter k m :
  JsMap.keys (JsMap.delete k m) = filter (fun k' => k' <> k) (JsMap.keys m).
Proof.
  induction m as [|[k0 v0] m IH]; simpl; [done|].
  destruct (decide (k = k0)) as [->|Hne]; simpl.
  - rewrite filter_cons_False by (intros Hk; by apply Hk). exact IH.
  - rewrite filter_cons_True by congruence. unfold JsMap.keys in *.
    simpl. f_equal. exact IH.
Qed.

Lemma size_delete_present k v m :
  NoDup (JsMap.keys m) -> JsMap.get k m = Some v ->
  S (JsMap.size (JsMap.delete k m)) = JsMap.size m.
Proof.
  induction m as [|[k0 v0] m IH]; simpl; [done|].
  rewrite NoDup_cons. intros [Hk Hnd].
  destruct (decide (k = k0)) as [->|Hne]; simpl.
  - intros _. rewrite delete_absent; [done|].
    by apply JsMapFacts.get_None_not_key.
  - intros Hg. unfold JsMap.size in *. simpl. f_equal. by apply IH.
Qed.

End Order.
End JsMapOrder.

Lemma identity_of_get (w : World) (H : SocketId) (A : string) :
  identity_of w H = Some A ->
  exists userData, JsMap.get H (userSockets (router w)) = Some userData
                   /\ username userData = A.
Proof.
  unfold identity_of. destruct (JsMap.get H (userSockets (router w))) as [ud|];
    simpl; [|done].
  intros [= <-]. by exists ud.
Qed.

Lemma identity_of_None_get (w : World) (H : SocketId) :
  identity_of w H = None -> JsMap.get H (userSockets (router w)) = None.
Proof.
  unfold identity_of. by destruct (JsMap.get H (userSockets (router w))).
Qed.

Lemma step_disconnect_identified oracle (w : World) (H : SocketId) (A : string) :
  identity_of w H = Some A ->
  step oracle w (H, disconnect) =
  mkWorld
    (mkHandler (JsMap.delete A (connectedUsers (router w)))
               (JsMap.delete H (userSockets (router w))))
    (outbox w) (clock_reads w) (random_reads w).
Proof.
  intros Hid. apply identity_of_get in Hid as (ud & Hs & <-).
  unfold step; simpl. by apply handleDisconnection_identified.
Qed.

(** A successful identify counts a new identity once and appends it to the
    list of connected usernames; an identify for an identity that is
    already connected leaves the count and the list, order included, as
    they are. *)
Theorem identify_usernames_and_count
    (oracle : Oracle) (w : World) (H : SocketId) (A : string) :
  A <> "" ->
  let w' := step oracle w (H, identify A) in
  let names := JsMap.keys (connectedUsers (router w)) in
  let n := JsMap.size (connectedUsers (router w)) in
  (handle_of w A = None ->
     getConnectedUsernames w' = Ok (names ++ [A]) w'
     /\ getConnectedUsersCount w' = Ok (S n) w')
  /\ (forall Hold : SocketId, handle_of w A = Some Hold ->
        getConnectedUsernames w' = Ok names w'
        /\ getConnectedUsersCount w' = Ok n w').
Proof.
  intros HA w' names n.
  assert (Hr : connectedUsers (router w')
               = JsMap.set A H (connectedUsers (router w))).
  { subst w'. by rewrite identify_bound. }
  unfold getConnectedUsernames, getConnectedUsersCount, bind, ret,
    this_connectedUsers, handle_of. rewrite Hr. split.
  - intros Habsent. rewrite (JsMapOrder.set_absent _ _ _ Habsent).
    unfold JsMap.keys, JsMap.size. rewrite fmap_app, length_app. simpl.
    split; [done|]. do 2 f_equal. subst n. unfold JsMap.size.
    by rewrite Nat.add_1_r.
  - intros Hold Hbound.
    rewrite (JsMapOrder.keys_set_present _ _ _ _ Hbound). split; [done|].
    f_equal. subst n. rewrite !JsMapFacts.size_keys.
    by rewrite (JsMapOrder.keys_set_present _ _ _ _ Hbound).
Qed.

Lemma identify_usernames_and_count_witness :
  let w := step sample_oracle initial_world ("h1", identify "alice") in
  let w1 := step sample_oracle w ("h2", identify "bob") in
  let w2 := step sample_oracle w ("h2", identify "alice") in
  getConnectedUsernames w1 = Ok ["alice"; "bob"] w1
  /\ getConnectedUsersCount w2 = Ok 1 w2.
Proof.
  intros w w1 w2.
  destruct (identify_usernames_and_count sample_oracle w "h2" "bob")
    as [Hnew _]; [discriminate|].
  destruct (identify_usernames_and_count sample_oracle w "h2" "alice")
    as [_ Hknown]; [discriminate|].
  split.
  - apply Hnew. reflexivity.
  - apply (Hknown "h1"). reflexivity.
Defined.

(** The transport close of a handle identified as [A] removes [A], and
    nothing else, from the list of connected usernames, the others
    keeping their order; at a state the router reaches, when [A] was
    listed the count drops by exactly one. *)
Theorem disconnect_usernames_and_count
    (oracle : Oracle) (tr : list (SocketId * ClientEvent))
    (H : SocketId) (A : string) :
  let w := run_trace oracle tr initial_world in
  let w' := step oracle w (H, disconnect) in
  identity_of w H = Some A ->
  getConnectedUsernames w'
  = Ok (filter (fun user => user <> A) (JsMap.keys (connectedUsers (router w)))) w'
  /\ (forall Hcur : SocketId, handle_of w A = Some Hcur ->
        exists n, getConnectedUsersCount w' = Ok n w'
                  /\ getConnectedUsersCount w = Ok (S n) w).
Proof.
  intros w w' Hid.
  assert (Hr : connectedUsers (router w')
               = JsMap.delete A (connectedUsers (router w))).
  { subst w'. by rewrite (step_disconnect_identified oracle w H A Hid). }
  unfold getConnectedUsernames, getConnectedUsersCount, bind, ret,
    this_connectedUsers, handle_of. rewrite Hr. split.
  - by rewrite JsMapOrder.keys_delete_filter.
  - intros Hcur Hbound. eexists. split; [reflexivity|]. do 2 f_equal.
    symmetry. apply (JsMapOrder.size_delete_present _ Hcur); [|done].
    apply (run_trace_tables_nodup oracle tr initial_world
             initial_tables_nodup).
Qed.

Lemma disconnect_usernames_and_count_witness :
  let w := run_trace sample_oracle
             [("h1", identify "alice"); ("h2", identify "bob");
              ("h3", identify "carol")] initial_world in
  let w' := step sample_oracle w ("h2", disconnect) in
  getConnectedUsernames w' = Ok ["alice"; "carol"] w'.
Proof.
  intros w w'.
  destruct (disconnect_usernames_and_count sample_oracle
              [("h1", identify "alice"); ("h2", identify "bob");
               ("h3", identify "carol")] "h2" "bob") as [Hnames _];
    [reflexivity|].
  exact Hnames.
Defined.

(** Identify then close is a round trip: when [A] is not connected and
    [H] is not identified, identify(A) on [H] followed by the transport
    close of [H] gives back both tables exactly as they were. *)
Theorem identify_then_disconnect_restores_tables
    (oracle : Oracle) (w : World) (H : SocketId) (A : string) :
  A <> "" -> handle_of w A = None -> identity_of w H = None ->
  router (run_trace oracle [(H, identify A); (H, disconnect)] w) = router w.
Proof.
  intros HA Habsent Hunid. unfold run_trace; simpl.
  rewrite (step_disconnect_identified oracle _ H A).
  - rewrite identify_bound by done. simpl.
    rewrite (JsMapOrder.delete_set_absent _ _ _ Habsent).
    rewrite (JsMapOrder.delete_set_absent _ _ _
               (identity_of_None_get w H Hunid)).
    by destruct (router w).
  - rewrite identify_bound by done. unfold identity_of; simpl.
    by rewrite JsMapFacts.get_set_eq.
Qed.

Lemma identify_then_disconnect_restores_tables_witness :
  let w := step sample_oracle initial_world ("h1", identify "alice") in
  router (run_trace sample_oracle
            [("h2", identify "bob"); ("h2", disconnect)] w) = router w.
Proof.
  intros w.
  apply (identify_then_disconnect_restores_tables sample_oracle w "h2" "bob");
    [discriminate | reflexivity | reflexivity].
Defined.

(** A stale binding: when one connection identifies as [A], then as a
    different identity [B], and is then closed, only [B] is removed: [A]
    stays bound to the closed handle and "is A online" answers true
    although no identified connection remains for it. *)
Theorem reidentify_then_disconnect_leaves_stale_binding
    (oracle : Oracle) (w : World) (H : SocketId) (A B : string) :
  A <> "" -> B <> "" -> A <> B ->
  let w3 := run_trace oracle
              [(H, identify A); (H, identify B); (H, disconnect)] w in
  handle_of w3 A = Some H
  /\ handle_of w3 B = None
  /\ identity_of w3 H = None
  /\ isUserOnline A w3 = Ok true w3.
Proof.
  intros HA HB Hne w3.
  assert (Hw3 : router w3 =
    mkHandler
      (JsMap.delete B (JsMap.set B H (JsMap.set A H (connectedUsers (router w)))))
      (JsMap.delete H
         (JsMap.set H (mkUserData B (Date_now oracle (S (clock_reads w))))
            (JsMap.set H (mkUserData A (Date_now oracle (clock_reads w)))
               (userSockets (router w)))))).
  { subst w3.
    change (run_trace oracle [(H, identify A); (H, identify B); (H, disconnect)] w)
      with (step oracle (run_trace oracle [(H, identify A); (H, identify B)] w)
                 (H, disconnect)).
    rewrite (step_disconnect_identified oracle _ H B).
    - by rewrite run_two_identifies.
    - rewrite run_two_identifies by done. unfold identity_of; simpl.
      by rewrite JsMapFacts.get_set_eq. }
  assert (HhA : handle_of w3 A = Some H).
  { unfold handle_of. rewrite Hw3; simpl.
    rewrite JsMapFacts.get_delete_ne by congruence.
    rewrite JsMapFacts.get_set_ne by congruence.
    apply JsMapFacts.get_set_eq. }
  split; [exact HhA|]. unfold handle_of, identity_of in *.
  rewrite isUserOnline_reads. unfold JsMap.has. rewrite HhA.
  rewrite Hw3; simpl. rewrite !JsMapFacts.get_delete_eq. done.
Qed.

Lemma reidentify_then_disconnect_leaves_stale_binding_witness :
  let w3 := run_trace sample_oracle
              [("h1", identify "alice"); ("h1", identify "bob");
               ("h1", disconnect)] initial_world in
  handle_of w3 "alice" = Some "h1" /\ identity_of w3 "h1" = None.
Proof.
  intros w3.
  destruct (reidentify_then_disconnect_leaves_stale_binding sample_oracle
              initial_world "h1" "alice" "bob") as (HA & _ & Hid & _);
    [discriminate | discriminate | discriminate |].
  split; [exact HA | exact Hid].
Defined.

(** The transport close is idempotent, and the close of a connection
    that never identified changes nothing at all. *)
Theorem disconnect_idempotent
    (oracle : Oracle) (w : World) (H : SocketId) :
  step oracle (step oracle w (H, disconnect)) (H, disconnect)
  = step oracle w (H, disconnect)
  /\ (identity_of w H = None -> step oracle w (H, disconnect) = w).
Proof.
  assert (Hnop : forall w0, identity_of w0 H = None ->
                            step oracle w0 (H, disconnect) = w0).
  { intros w0 Hid. unfold step; simpl.
    by apply handleDisconnection_unidentified, identity_of_None_get. }
  split; [|apply Hnop].
  apply Hnop. destruct (identity_of w H) as [A|] eqn:Hid.
  - rewrite (step_disconnect_identified oracle w H A Hid).
    unfold identity_of; simpl. by rewrite JsMapFacts.get_delete_eq.
  - by rewrite (Hnop w Hid).
Qed.

(** *** messageReceived *)

Lemma handleMessageReceived_unidentified oracle socket confirmationData w :
  JsMap.get socket (userSockets (router w)) = None ->
  exec (handleMessageReceived oracle socket confirmationData) w = w.
Proof.
  intros Hs. unfold handleMessageReceived. run_handler. by rewrite Hs.
Qed.

Lemma handleMessageReceived_no_payload oracle socket w :
  exec (handleMessageReceived oracle socket None) w = w.
Proof.
  unfold handleMessageReceived. run_handler.
  by destruct (JsMap.get socket (userSockets (router w))).
Qed.

Lemma handleMessageReceived_absent oracle socket cd w :
  truthy (get_maybe (conf_from cd) (connectedUsers (router w))) = None ->
  exec (handleMessageReceived oracle socket (Some cd)) w = w.
Proof.
  intros Hr. unfold handleMessageReceived. run_handler.
  destruct (JsMap.get socket _); simpl; [|done]. by rewrite Hr.
Qed.

Lemma handleMessageReceived_relayed oracle socket receiverData cd senderSocketId w :
  JsMap.get socket (userSockets (router w)) = Some receiverData ->
  truthy (get_maybe (conf_from cd) (connectedUsers (router w)))
    = Some senderSocketId ->
  exec (handleMessageReceived oracle socket (Some cd)) w =
  mkWorld (router w)
          (outbox w ++ [io_to_emit senderSocketId
                          (messageRead (conf_messageId cd)
                                       (username receiverData)
                                       (Date_now oracle (clock_reads w)))])
          (S (clock_reads w)) (random_reads w).
Proof.
  intros Hs Hr. unfold handleMessageReceived. run_handler.
  rewrite Hs; simpl. by rewrite Hr.
Qed.

(** At every state the router reaches, a read confirmation from a
    connection identified as [R], naming a sender [S] that is connected
    on [HS], is relayed as exactly one 'messageRead' event to [HS],
    carrying the confirmed message id, [readBy = R] and the current
    clock; no other connection receives anything and the tables do not
    change. *)
Theorem messageReceived_relays_read_confirmation
    (oracle : Oracle) (tr : list (SocketId * ClientEvent))
    (H HS : SocketId) (R S : string) (cd : ConfirmationData) :
  valid_socket_ids tr = true ->
  let w := run_trace oracle tr initial_world in
  let confirm := handleMessageReceived oracle H (Some cd) in
  identity_of w H = Some R ->
  conf_from cd = Some S ->
  handle_of w S = Some HS ->
  emitted_by confirm w
  = [io_to_emit HS (messageRead (conf_messageId cd) R
                                (Date_now oracle (clock_reads w)))]
  /\ (forall H', H' <> HS -> events_on H' (emitted_by confirm w) = [])
  /\ router (exec confirm w) = router w.
Proof.
  intros Hvalid w confirm Hid Hfrom Hsender.
  apply identity_of_get in Hid as (rd & Hs & <-).
  assert (HHS : HS <> "").
  { apply (run_trace_handles_nonempty oracle tr initial_world Hvalid
             initial_handles_nonempty S HS Hsender). }
  assert (Hr : truthy (get_maybe (conf_from cd) (connectedUsers (router w)))
               = Some HS).
  { rewrite Hfrom. simpl. unfold handle_of in Hsender.
    rewrite Hsender. by apply truthy_nonempty. }
  pose proof (handleMessageReceived_relayed oracle H rd cd HS w Hs Hr) as Hex.
  assert (Hem : emitted_by confirm w
                = [io_to_emit HS (messageRead (conf_messageId cd) (username rd)
                                    (Date_now oracle (clock_reads w)))]).
  { apply emitted_by_app. unfold confirm. by rewrite Hex. }
  rewrite Hem. split; [done|]. split.
  - intros H' Hne. unfold events_on.
    rewrite filter_cons_False; [done | simpl; congruence].
  - unfold confirm. by rewrite Hex.
Qed.

Lemma messageReceived_relays_read_confirmation_witness :
  let w := run_trace sample_oracle
             [("h1", identify "alice"); ("h2", identify "bob")]
             initial_world in
  emitted_by (handleMessageReceived sample_oracle "h2"
                (Some (mkConfirmationData (Some "m1") (Some "alice")))) w
  = [io_to_emit "h1" (messageRead (Some "m1") "bob" 1700000000002%Z)].
Proof.
  intros w.
  destruct (messageReceived_relays_read_confirmation sample_oracle
              [("h1", identify "alice"); ("h2", identify "bob")]
              "h2" "h1" "bob" "alice"
              (mkConfirmationData (Some "m1") (Some "alice")))
    as (Hem & _ & _); [reflexivity | reflexivity | reflexivity | reflexivity |].
  exact Hem.
Defined.

(** A read confirmation is dropped without a trace, leaving the whole
    world (tables, outbox and clock) as it is: when the confirming
    connection is not identified, when the payload is missing, and when
    the sender it names is absent from the identity-to-handle table. *)
Theorem messageReceived_silent_discard
    (oracle : Oracle) (w : World) (H : SocketId) :
  (identity_of w H = None ->
     forall confirmationData : option ConfirmationData,
       step oracle w (H, messageReceived confirmationData) = w)
  /\ step oracle w (H, messageReceived None) = w
  /\ (forall cd : ConfirmationData,
        get_maybe (conf_from cd) (connectedUsers (router w)) = None ->
        step oracle w (H, messageReceived (Some cd)) = w).
Proof.
  unfold step; simpl. split; [|split].
  - intros Hid confirmationData.
    by apply handleMessageReceived_unidentified, identity_of_None_get.
  - apply handleMessageReceived_no_payload.
  - intros cd Habsent. apply handleMessageReceived_absent. by rewrite Habsent.
Qed.

Lemma messageReceived_silent_discard_witness :
  let w := step sample_oracle initial_world ("h1", identify "alice") in
  step sample_oracle w
       ("h9", messageReceived (Some (mkConfirmationData (Some "m1")
                                                         (Some "alice")))) = w
  /\ step sample_oracle w
          ("h1", messageReceived (Some (mkConfirmationData (Some "m1")
                                                            (Some "ghost")))) = w.
Proof.
  intros w.
  destruct (messageReceived_silent_discard sample_oracle w "h9")
    as (Hunid & _ & _).
  destruct (messageReceived_silent_discard sample_oracle w "h1")
    as (_ & _ & Habsent).
  split.
  - apply Hunid. reflexivity.
  - apply Habsent. reflexivity.
Defined.

(** *** sendMessage: validation, missing payload, timestamps *)

Lemma handleMessageSend_invalid oracle socket senderData md w :
  JsMap.get socket (userSockets (router w)) = Some senderData ->
  truthy (msg_to md) = None \/ truthy (msg_encryptedContent md) = None ->
  exec (handleMessageSend oracle socket (Some md)) w =
  mkWorld (router w)
          (outbox w ++ [socket_emit socket
                          (error "Recipient and message content are required")])
          (clock_reads w) (random_reads w).
Proof.
  intros Hs Hbad. unfold handleMessageSend. run_handler. rewrite Hs; simpl.
  destruct Hbad as [-> | Hc]; [done|].
  destruct (truthy (msg_to md)); [|done]. by rewrite Hc.
Qed.

Lemma handleMessageSend_no_payload oracle socket senderData w :
  JsMap.get socket (userSockets (router w)) = Some senderData ->
  exec (handleMessageSend oracle socket None) w =
  mkWorld (router w)
          (outbox w ++ [socket_emit socket (error "Message send failed")])
          (clock_reads w) (random_reads w).
Proof.
  intros Hs. unfold handleMessageSend. run_handler. by rewrite Hs.
Qed.

Lemma handleMessageSend_routed_world oracle socket senderData md to content w :
  JsMap.get socket (userSockets (router w)) = Some senderData ->
  truthy (msg_to md) = Some to ->
  truthy (msg_encryptedContent md) = Some content ->
  let mid := resolved_id oracle (msg_id md) w in
  let generated := match truthy (msg_id md) with Some _ => 0 | None => 1 end in
  let c1 := clock_reads w + generated in
  let stamped := match truthy_number (msg_timestamp md) with
                 | Some _ => 0 | None => 1 end in
  let timestamp := match truthy_number (msg_timestamp md) with
                   | Some t => t
                   | None => Date_now oracle c1
                   end in
  let c2 := c1 + stamped in
  exec (handleMessageSend oracle socket (Some md)) w =
  mkWorld (router w)
    (outbox w ++
     match truthy (JsMap.get to (connectedUsers (router w))) with
     | Some recipientSocketId =>
         [io_to_emit recipientSocketId
            (message mid (username senderData) to content timestamp
                     (Date_now oracle c2));
          socket_emit socket
            (messageDelivered mid "delivered" None (Date_now oracle (S c2)))]
     | None =>
         [socket_emit socket
            (messageDelivered mid "failed" (Some "Recipient is offline")
                              (Date_now oracle (S c2)))]
     end)
    (S (S c2)) (random_reads w + generated).
Proof.
  intros Hs Hto Hc. unfold handleMessageSend, resolved_id.
  run_handler. rewrite Hs; simpl. rewrite Hto, Hc.
  destruct (truthy (msg_id md)), (truthy_number (msg_timestamp md)); simpl;
    case_truthy; simpl;
    rewrite ?Nat.add_0_r, ?Nat.add_1_r, <- ?app_assoc; reflexivity.
Qed.

(** A sendMessage from an identified connection whose recipient or
    content is missing or empty is answered by exactly one 'error' event
    'Recipient and message content are required' on that connection: no
    receipt, no forwarding even when the named recipient is connected,
    no clock reading and no table change. *)
Theorem send_rejects_missing_recipient_or_content
    (oracle : Oracle) (w : World) (H : SocketId) (A : string)
    (md : MessageData) :
  identity_of w H = Some A ->
  truthy (msg_to md) = None \/ truthy (msg_encryptedContent md) = None ->
  step oracle w (H, sendMessage (Some md)) =
  mkWorld (router w)
          (outbox w ++ [socket_emit H
                          (error "Recipient and message content are required")])
          (clock_reads w) (random_reads w).
Proof.
  intros Hid Hbad. apply identity_of_get in Hid as (sd & Hs & _).
  unfold step; simpl. by apply (handleMessageSend_invalid oracle H sd).
Qed.

Lemma send_rejects_missing_recipient_or_content_witness :
  let w := run_trace sample_oracle
             [("h1", identify "alice"); ("h2", identify "bob")]
             initial_world in
  emitted_by (on sample_oracle "h1"
                (sendMessage (Some (mkMessageData (Some "bob") (Some "")
                                                  None (Some "m1"))))) w
  = [socket_emit "h1" (error "Recipient and message content are required")].
Proof.
  intros w. apply emitted_by_app.
  change (exec (on sample_oracle "h1"
                  (sendMessage (Some (mkMessageData (Some "bob") (Some "")
                                                    None (Some "m1"))))) w)
    with (step sample_oracle w
            ("h1", sendMessage (Some (mkMessageData (Some "bob") (Some "")
                                                    None (Some "m1"))))).
  rewrite (send_rejects_missing_recipient_or_content sample_oracle w "h1"
             "alice"); [reflexivity | reflexivity | right; reflexivity].
Defined.

Lemma handleTyping_no_payload socket w :
  exec (handleTyping socket None) w = w.
Proof.
  unfold handleTyping. run_handler.
  by destruct (JsMap.get socket (userSockets (router w))).
Qed.

(** An event that arrives without a payload object makes the
    destructuring throw; the handler's catch turns that into feedback on
    the same connection or into nothing, and the tables and the clock
    stay as they are, on any connection and in any world: authenticate is
    answered by 'authError' 'Authentication failed'; sendMessage by
    'error' 'Message send failed' when the connection is identified and
    by 'error' 'Not authenticated' when it is not; typing and
    messageReceived by nothing. *)
Theorem missing_payload_is_contained
    (oracle : Oracle) (w : World) (H : SocketId) :
  step oracle w (H, authenticate None) =
    mkWorld (router w)
            (outbox w ++ [socket_emit H (authError "Authentication failed")])
            (clock_reads w) (random_reads w)
  /\ (is_Some (identity_of w H) ->
      step oracle w (H, sendMessage None) =
        mkWorld (router w)
                (outbox w ++ [socket_emit H (error "Message send failed")])
                (clock_reads w) (random_reads w))
  /\ (identity_of w H = None ->
      step oracle w (H, sendMessage None) =
        mkWorld (router w)
                (outbox w ++ [socket_emit H (error "Not authenticated")])
                (clock_reads w) (random_reads w))
  /\ step oracle w (H, typing None) = w
  /\ step oracle w (H, messageReceived None) = w.
Proof.
  unfold step; simpl. split; [apply handleAuthentication_thrown|].
  split; [|split; [|split]].
  - intros [A Hid]. apply identity_of_get in Hid as (sd & Hs & _).
    by apply (handleMessageSend_no_payload oracle H sd).
  - intros Hid. by apply handleMessageSend_unauthenticated,
                         identity_of_None_get.
  - apply handleTyping_no_payload.
  - apply handleMessageReceived_no_payload.
Qed.

Lemma missing_payload_is_contained_witness :
  let w := step sample_oracle initial_world ("h1", identify "alice") in
  router (step sample_oracle w ("h9", authenticate None)) = router w
  /\ emitted_by (on sample_oracle "h1" (sendMessage None)) w
     = [socket_emit "h1" (error "Message send failed")]
  /\ emitted_by (on sample_oracle "h9" (sendMessage None)) w
     = [socket_emit "h9" (error "Not authenticated")]
  /\ step sample_oracle w ("h1", typing None) = w.
Proof.
  intros w.
  destruct (missing_payload_is_contained sample_oracle w "h1")
    as (_ & Hsend & _ & Htyping & _).
  destruct (missing_payload_is_contained sample_oracle w "h9")
    as (Hauth & _ & Hunid & _).
  split; [by rewrite Hauth|]. split; [|split; [|exact Htyping]].
  - apply emitted_by_app.
    change (exec (on sample_oracle "h1" (sendMessage None)) w)
      with (step sample_oracle w ("h1", sendMessage None)).
    rewrite Hsend; [reflexivity | by eexists].
  - apply emitted_by_app.
    change (exec (on sample_oracle "h9" (sendMessage None)) w)
      with (step sample_oracle w ("h9", sendMessage None)).
    rewrite Hunid; reflexivity.
Defined.

(** The forwarded message carries the caller's timestamp when it is a
    non-zero number; a missing or zero timestamp is replaced by the
    router's clock.  [deliveredAt] is read from the clock after that and
    the receipt's timestamp after [deliveredAt]. *)
Theorem send_timestamps
    (oracle : Oracle) (tr : list (SocketId * ClientEvent))
    (H HR : SocketId) (A to content id : string) (ts : option Z) :
  valid_socket_ids tr = true ->
  let w := run_trace oracle tr initial_world in
  let send := handleMessageSend oracle H
                (Some (mkMessageData (Some to) (Some content) ts (Some id))) in
  let c := clock_reads w in
  identity_of w H = Some A -> handle_of w to = Some HR ->
  to <> "" -> content <> "" -> id <> "" ->
  (forall t : Z, ts = Some t -> t <> 0%Z ->
     emitted_by send w =
     [io_to_emit HR (message id A to content t (Date_now oracle c));
      socket_emit H (messageDelivered id "delivered" None
                                      (Date_now oracle (S c)))])
  /\ (ts = None \/ ts = Some 0%Z ->
      emitted_by send w =
      [io_to_emit HR (message id A to content (Date_now oracle c)
                              (Date_now oracle (S c)));
       socket_emit H (messageDelivered id "delivered" None
                                       (Date_now oracle (S (S c))))]).
Proof.
  intros Hvalid w send c Hid Hrecipient Hto Hcontent Hidne.
  apply identity_of_get in Hid as (sd & Hs & <-).
  assert (HHR : HR <> "").
  { apply (run_trace_handles_nonempty oracle tr initial_world Hvalid
             initial_handles_nonempty to HR Hrecipient). }
  pose proof (handleMessageSend_routed_world oracle H sd
                (mkMessageData (Some to) (Some content) ts (Some id))
                to content w Hs (truthy_nonempty to Hto)
                (truthy_nonempty content Hcontent)) as Hex.
  cbv zeta in Hex. unfold resolved_id in Hex.
  cbn [msg_to msg_encryptedContent msg_timestamp msg_id] in Hex.
  unfold handle_of in Hrecipient.
  rewrite Hrecipient, (truthy_nonempty HR HHR) in Hex.
  rewrite (truthy_nonempty id Hidne) in Hex.
  rewrite Nat.add_0_r in Hex. fold c in Hex. split.
  - intros t -> Ht. apply emitted_by_app. unfold send. rewrite Hex.
    assert (Et : truthy_number (Some t) = Some t).
    { simpl. destruct (Z.eqb t 0) eqn:E; [apply Z.eqb_eq in E; done | done]. }
    rewrite Et. by rewrite Nat.add_0_r.
  - intros Hts. apply emitted_by_app. unfold send. rewrite Hex.
    assert (Et : truthy_number ts = None) by (by destruct Hts as [-> | ->]).
    rewrite Et. by rewrite Nat.add_1_r.
Qed.

Lemma send_timestamps_witness :
  let w := run_trace sample_oracle
             [("h1", identify "alice"); ("h2", identify "bob")]
             initial_world in
  emitted_by (handleMessageSend sample_oracle "h1"
                (Some (mkMessageData (Some "bob") (Some "ct1") (Some 0%Z)
                                     (Some "m1")))) w
  = [io_to_emit "h2" (message "m1" "alice" "bob" "ct1" 1700000000002%Z
                              1700000000003%Z);
     socket_emit "h1" (messageDelivered "m1" "delivered" None
                                        1700000000004%Z)].
Proof.
  intros w.
  destruct (send_timestamps sample_oracle
              [("h1", identify "alice"); ("h2", identify "bob")]
              "h1" "h2" "alice" "bob" "ct1" "m1" (Some 0%Z))
    as [_ Hclock];
    [reflexivity | reflexivity | reflexivity | discriminate | discriminate
    | discriminate |].
  apply Hclock. by right.
Defined.

(** *** What any event can emit and change *)

Lemma get_maybe_Some {V} (k : option string) (m : list (string * V)) (v : V) :
  get_maybe k m = Some v -> exists k', k = Some k' /\ JsMap.get k' m = Some v.
Proof. destruct k as [k'|]; simpl; [|done]. intros Hg. by exists k'. Qed.

Lemma in_scope_relay (w : World) (H r : SocketId) (user : string)
    (ev : ServerEvent) :
  relay_event ev = true -> handle_of w user = Some r ->
  in_scope w H (io_to_emit r ev).
Proof. intros Hev Hh. split; [done | by exists user]. Qed.

Lemma identity_of_of_get (w : World) (H : SocketId) (userData : UserData) :
  JsMap.get H (userSockets (router w)) = Some userData ->
  identity_of w H = Some (username userData).
Proof. intros Hs. unfold identity_of. by rewrite Hs. Qed.

(** Every emission of one step is feedback on the socket of the event or
    a relay event, authored by the identity of that socket, to a handle
    of the identity-to-handle table; there are at most two. *)
Lemma step_emissions (P : Emission -> Prop)
    (oracle : Oracle) (w : World) (H : SocketId) (e : ClientEvent) :
  (forall ev, relay_event ev = false -> P (socket_emit H ev)) ->
  (forall (r : SocketId) (user : string) (ev : ServerEvent),
      relay_event ev = true -> handle_of w user = Some r ->
      author_of ev = identity_of w H -> is_Some (identity_of w H) ->
      P (io_to_emit r ev)) ->
  exists l : list Emission,
    outbox (step oracle w (H, e)) = outbox w ++ l
    /\ length l <= 2
    /\ Forall P l.
Proof.
  intros Hfeedback Hrelay.
  assert (Hnone : forall w', w' = w ->
            exists l, outbox w' = outbox w ++ l /\ length l <= 2
                      /\ Forall P l).
  { intros w' ->. exists []. rewrite app_nil_r.
    split; [done|]. split; [simpl; lia | apply Forall_nil_2]. }
  assert (Hone : forall ev, relay_event ev = false ->
            exists l, outbox w ++ [socket_emit H ev] = outbox w ++ l
                      /\ length l <= 2 /\ Forall P l).
  { intros ev Hev. exists [socket_emit H ev]. split; [done|].
    split; [simpl; lia|]. apply Forall_cons. split; [|apply Forall_nil_2].
    by apply Hfeedback. }
  unfold step; destruct e as [authData|messageData|cd|td| |]; simpl.
  - destruct authData as [ad|].
    + destruct (truthy (auth_username ad)) as [user|] eqn:Hu.
      * rewrite (handleAuthentication_bound oracle H ad user w Hu). simpl.
        by apply Hone.
      * rewrite (handleAuthentication_required oracle H ad w Hu). simpl.
        by apply Hone.
    + rewrite handleAuthentication_thrown. simpl. by apply Hone.
  - destruct (JsMap.get H (userSockets (router w))) as [sd|] eqn:Hs.
    + destruct messageData as [md|].
      * destruct (truthy (msg_to md)) as [to|] eqn:Hto.
        -- destruct (truthy (msg_encryptedContent md)) as [content|] eqn:Hc.
           ++ rewrite (handleMessageSend_routed_world oracle H sd md to content
                         w Hs Hto Hc). simpl.
              eexists. split; [reflexivity|].
              destruct (truthy (JsMap.get to (connectedUsers (router w))))
                as [r|] eqn:Hr.
              ** split; [simpl; lia|].
                 apply truthy_Some_inv in Hr as [Hr _].
                 apply Forall_cons. split.
                 { apply (Hrelay r to); [done | done | |];
                     rewrite (identity_of_of_get w H sd Hs); [done | by eexists]. }
                 apply Forall_cons. split; [|apply Forall_nil_2].
                 by apply Hfeedback.
              ** split; [simpl; lia|].
                 apply Forall_cons. split; [|apply Forall_nil_2].
                 by apply Hfeedback.
           ++ rewrite (handleMessageSend_invalid oracle H sd md w Hs);
                [|by right].
              simpl. by apply Hone.
        -- rewrite (handleMessageSend_invalid oracle H sd md w Hs);
             [|by left].
           simpl. by apply Hone.
      * rewrite (handleMessageSend_no_payload oracle H sd w Hs). simpl.
        by apply Hone.
    + rewrite (handleMessageSend_unauthenticated oracle H messageData w Hs).
      simpl. by apply Hone.
  - destruct (JsMap.get H (userSockets (router w))) as [rd|] eqn:Hs.
    + destruct cd as [cd|].
      * destruct (truthy (get_maybe (conf_from cd) (connectedUsers (router w))))
          as [r|] eqn:Hr.
        -- rewrite (handleMessageReceived_relayed oracle H rd cd r w Hs Hr).
           simpl. eexists. split; [reflexivity|]. split; [simpl; lia|].
           apply truthy_Some_inv in Hr as [Hr _].
           apply get_maybe_Some in Hr as (from & _ & Hfrom).
           apply Forall_cons. split; [|apply Forall_nil_2].
           apply (Hrelay r from); [done | done | |];
             rewrite (identity_of_of_get w H rd Hs); [done | by eexists].
        -- apply Hnone. by apply handleMessageReceived_absent.
      * apply Hnone. apply handleMessageReceived_no_payload.
    + apply Hnone. by apply handleMessageReceived_unidentified.
  - destruct (JsMap.get H (userSockets (router w))) as [sd|] eqn:Hs.
    + destruct td as [td|].
      * destruct (truthy (get_maybe (typ_to td) (connectedUsers (router w))))
          as [r|] eqn:Hr.
        -- rewrite (handleTyping_forwarded H sd td r w Hs Hr).
           simpl. eexists. split; [reflexivity|]. split; [simpl; lia|].
           apply truthy_Some_inv in Hr as [Hr _].
           apply get_maybe_Some in Hr as (to & _ & Hto).
           apply Forall_cons. split; [|apply Forall_nil_2].
           apply (Hrelay r to); [done | done | |];
             rewrite (identity_of_of_get w H sd Hs); [done | by eexists].
        -- apply Hnone. by apply handleTyping_absent.
      * apply Hnone. apply handleTyping_no_payload.
    + apply Hnone. by apply handleTyping_unidentified.
  - destruct (JsMap.get H (userSockets (router w))) as [ud|] eqn:Hs.
    + rewrite (handleDisconnection_identified H ud w Hs). simpl.
      exists []. rewrite app_nil_r.
      split; [done|]. split; [simpl; lia | apply Forall_nil_2].
    + apply Hnone. by apply handleDisconnection_unidentified.
  - by apply Hnone.
Qed.

(** For payloads whose username, recipient, content and id are strings or
    absent and worlds whose recorded identities are strings: whatever
    event arrives on a connection [H], the router only appends to what
    it has emitted, at most two emissions; each of them is either
    feedback written to [H] itself (an acknowledgement, an error, a
    receipt) or a relay event ('message', 'messageRead', 'userTyping')
    sent to a handle that the identity-to-handle table holds at that
    moment.  No error or receipt ever goes to another connection. *)
Theorem emissions_are_scoped
    (oracle : Oracle) (w : World) (H : SocketId) (e : ClientEvent) :
  exists l : list Emission,
    outbox (step oracle w (H, e)) = outbox w ++ l
    /\ length l <= 2
    /\ Forall (in_scope w H) l.
Proof.
  apply step_emissions.
  - intros ev Hev. by split.
  - intros r user ev Hev Hh _ _. by apply (in_scope_relay w H r user).
Qed.

(** The author named by a relayed event cannot be chosen by the client:
    whatever the payload says, every 'message', 'userTyping' and
    'messageRead' the router sends for an event on [H] names, as [from]
    or [readBy], the identity recorded for [H] at that moment, and an
    event on a connection that is not identified relays nothing. *)
Theorem relayed_events_carry_sender_identity
    (oracle : Oracle) (w : World) (H : SocketId) (e : ClientEvent) :
  exists l : list Emission,
    outbox (step oracle w (H, e)) = outbox w ++ l
    /\ Forall (fun em => relay_event (event_of em) = true ->
                         is_Some (identity_of w H)
                         /\ author_of (event_of em) = identity_of w H) l.
Proof.
  destruct (step_emissions
              (fun em => relay_event (event_of em) = true ->
                         is_Some (identity_of w H)
                         /\ author_of (event_of em) = identity_of w H)
              oracle w H e) as (l & Hout & _ & Hall).
  - intros ev Hev. simpl. congruence.
  - intros r user ev _ _ Hauthor Hsome _. by split.
  - by exists l.
Qed.

Lemma step_router_unchanged
    (oracle : Oracle) (w : World) (H : SocketId) (e : ClientEvent) :
  rebinds e = false -> router (step oracle w (H, e)) = router w.
Proof.
  intros He. unfold step; destruct e as [[ad|]|md|cd|td| |]; simpl; try done.
  - simpl in He. destruct (truthy (auth_username ad)) eqn:Hu; [done|].
    by rewrite handleAuthentication_required.
  - apply handleMessageSend_router.
  - apply handleMessageReceived_router.
  - apply handleTyping_router.
Qed.

(** Only a successful identify and the transport close write to the
    tables: a run of any length made of other events (sendMessage,
    messageReceived, typing, socket errors, identifies that fail), on any
    sockets, with any payloads and from any world, leaves both tables
    exactly as they were. *)
Theorem only_identify_and_disconnect_mutate
    (oracle : Oracle) (tr : list (SocketId * ClientEvent)) (w : World) :
  forallb (fun se => negb (rebinds (snd se))) tr = true ->
  router (run_trace oracle tr w) = router w.
Proof.
  revert w. induction tr as [|[H e] tr IH]; intros w Htr; simpl; [done|].
  simpl in Htr. apply andb_true_iff in Htr as [He Htr].
  apply negb_true_iff in He.
  rewrite (IH _ Htr). by apply step_router_unchanged.
Qed.

Lemma only_identify_and_disconnect_mutate_witness :
  let w := step sample_oracle initial_world ("h1", identify "alice") in
  router (run_trace sample_oracle
            [("h1", sendMessage (Some (mkMessageData (Some "alice") (Some "ct")
                                                     None None)));
             ("h2", authenticate (Some (mkAuthData (Some ""))));
             ("h1", typing (Some (mkTypingData (Some "alice") (Some true))))]
            w)
  = router w.
Proof.
  intros w.
  apply (only_identify_and_disconnect_mutate sample_oracle _ w).
  reflexivity.
Defined.

(** An event on a connection [H] can change the binding of an identity
    [B] in the identity-to-handle table only when it is an identify
    naming [B] or when [H] itself is recorded as [B]: the bindings of all
    other identities are out of its reach. *)
Theorem event_leaves_other_identities_bound
    (oracle : Oracle) (w : World) (H : SocketId) (e : ClientEvent)
    (B : string) :
  (forall ad, e = authenticate (Some ad) -> auth_username ad <> Some B) ->
  identity_of w H <> Some B ->
  handle_of (step oracle w (H, e)) B = handle_of w B.
Proof.
  intros Hclaim Hown. unfold handle_of.
  destruct (rebinds e) eqn:He.
  - destruct e as [[ad|]|md|cd|td| |]; simpl in He; try done.
    + destruct (truthy (auth_username ad)) as [user|] eqn:Hu; [|done].
      unfold step; simpl.
      rewrite (handleAuthentication_bound oracle H ad user w Hu). simpl.
      apply JsMapFacts.get_set_ne. intros ->.
      apply truthy_Some_inv in Hu as [Hu _]. by apply (Hclaim ad).
    + destruct (identity_of w H) as [A|] eqn:Hid.
      * rewrite (step_disconnect_identified oracle w H A Hid). simpl.
        apply JsMapFacts.get_delete_ne. congruence.
      * unfold step; simpl.
        by rewrite handleDisconnection_unidentified
          by (by apply identity_of_None_get).
  - by rewrite step_router_unchanged.
Qed.

Lemma event_leaves_other_identities_bound_witness :
  let w := run_trace sample_oracle
             [("h1", identify "alice"); ("h2", identify "bob")]
             initial_world in
  handle_of (step sample_oracle w ("h1", disconnect)) "bob" = Some "h2".
Proof.
  intros w.
  rewrite (event_leaves_other_identities_bound sample_oracle w "h1"
             disconnect "bob"); [reflexivity | discriminate | discriminate].
Defined.

(** *** No empty identity is ever bound *)

Lemma step_identities_nonempty oracle w se :
  identities_nonempty (router w) ->
  identities_nonempty (router (step oracle w se)).
Proof.
  destruct se as [socket e]. intros [Hcu Hus].
  destruct (step_router_cases oracle w socket e)
    as [-> | [(user & now & Huser & ->) | (ud & ->)]]; [done | |];
    split; simpl.
  - intros u Hin. apply JsMapFacts.keys_set in Hin as [-> | Hin];
      [done | by apply Hcu].
  - by apply (JsMapFacts.get_set_value (fun ud => username ud <> "")).
  - intros u Hin. apply JsMapFacts.keys_delete in Hin as [_ Hin].
    by apply Hcu.
  - by apply (JsMapFacts.get_delete_value (fun ud => username ud <> "")).
Qed.

(** At every state the router reaches by events whose username, when
    present, is a string, no table holds the empty string as an
    identity: every connected username is non-empty and so is the
    identity recorded for every handle, because an identify with an
    empty username is refused before either table is written. *)
Theorem bound_identities_are_nonempty
    (oracle : Oracle) (tr : list (SocketId * ClientEvent)) :
  identities_nonempty (router (run_trace oracle tr initial_world)).
Proof.
  assert (Hgen : forall w, identities_nonempty (router w) ->
                           identities_nonempty (router (run_trace oracle tr w))).
  { induction tr as [|se tr IH]; intros w Hw; simpl; [done|].
    apply IH. by apply step_identities_nonempty. }
  apply Hgen. split; simpl.
  - intros user Hin. by apply elem_of_nil in Hin.
  - intros h ud Hg. done.
Qed.

(** *** The broadcast route *)

Ltac settle_route :=
  repeat (intros; simplify_eq; try done;
          match goal with
          | H : _ /\ _ |- _ => destruct H
          | H : ex _ |- _ => destruct H
          | H : _ \/ _ |- _ => destruct H
          | |- _ <-> _ => split
          | |- _ /\ _ => split
          | |- exists w', Some ?w = Some w' /\ _ => exists w
          | |- exists b w text, Some ?b0 = Some b /\ Some ?w0 = Some w /\ _ =>
              exists b0, w0
          | |- exists text, _ = _ /\ _ = _ /\ _ = Some text => eexists
          end).

(** [POST /websocket/broadcast] sends a 'systemBroadcast' exactly when it
    answers 200, which is exactly when the service is available and the
    message is non-empty; an unavailable service is reported (503) before
    the message is looked at; a sent broadcast carries the message, the
    requested type or 'announcement' when none was given, and the
    response counts the connected usernames; the tables never change. *)
Theorem broadcast_route_contract
    (oracle : Oracle) (body : option BroadcastRequest)
    (wsHandler : option World) (io : bool) :
  let out := POST_websocket_broadcast oracle body wsHandler io in
  (bo_status out = 200 <-> bo_emitted out <> [])
  /\ (bo_status out = 200 <->
      io = true /\ exists b w text, body = Some b /\ wsHandler = Some w
                                   /\ truthy (bc_message b) = Some text)
  /\ (forall b, body = Some b -> wsHandler = None \/ io = false ->
                bo_status out = 503)
  /\ (forall w, wsHandler = Some w ->
        exists w', bo_handler out = Some w' /\ router w' = router w)
  /\ (forall b w text,
        body = Some b -> wsHandler = Some w -> io = true ->
        truthy (bc_message b) = Some text ->
        bo_body out
        = broadcast_sent_body true "Broadcast sent successfully"
            (length (JsMap.keys (connectedUsers (router w))))
        /\ exists (timestamp : Z) (broadcastId : string),
             bo_emitted out
             = [systemBroadcast
                  (match bc_type b with Some t => t | None => "announcement" end)
                  text timestamp broadcastId]).
Proof.
  intros out. subst out. unfold POST_websocket_broadcast.
  destruct body as [b|]; simpl;
    [destruct wsHandler as [w|]; simpl;
      [destruct io; simpl;
        [destruct (truthy (bc_message b)) as [text|] eqn:Hm; simpl|]|]|].
  all: (split; [|split; [|split; [|split]]]).
  all: try solve [settle_route].
  intros b' w' text' [= <-] [= <-] _ Ht. rewrite Hm in Ht.
  injection Ht as <-. split.
  - by rewrite JsMapFacts.size_keys.
  - by do 2 eexists.
Qed.

Lemma broadcast_route_contract_witness :
  let w := run_trace sample_oracle
             [("h1", identify "alice"); ("h2", identify "bob")]
             initial_world in
  let out := POST_websocket_broadcast sample_oracle
               (Some (mkBroadcastRequest (Some "maintenance at noon") None))
               (Some w) true in
  bo_body out = broadcast_sent_body true "Broadcast sent successfully" 2
  /\ bo_status (POST_websocket_broadcast sample_oracle
                  (Some (mkBroadcastRequest None None)) None true) = 503.
Proof.
  intros w out.
  destruct (broadcast_route_contract sample_oracle
              (Some (mkBroadcastRequest (Some "maintenance at noon") None))
              (Some w) true) as (_ & _ & _ & _ & Hsent).
  destruct (broadcast_route_contract sample_oracle
              (Some (mkBroadcastRequest None None)) None true)
    as (_ & _ & Hunavailable & _).
  split.
  - apply (Hsent (mkBroadcastRequest (Some "maintenance at noon") None) w
                 "maintenance at noon"); reflexivity.
  - apply (Hunavailable (mkBroadcastRequest None None));
      [reflexivity | by left].
Defined.

Lemma disconnect_idempotent_witness :
  let w := step sample_oracle initial_world ("h1", identify "alice") in
  step sample_oracle (step sample_oracle w ("h1", disconnect)) ("h1", disconnect)
  = step sample_oracle w ("h1", disconnect)
  /\ step sample_oracle w ("h9", disconnect) = w.
Proof.
  intros w.
  destruct (disconnect_idempotent sample_oracle w "h1") as [Htwice _].
  destruct (disconnect_idempotent sample_oracle w "h9") as [_ Hnop].
  split; [exact Htwice | apply Hnop; reflexivity].
Defined.

(** *** Sending after a close *)

(** Once a connection recorded as [B] has been closed, a well-formed
    message to [B] from another identified connection is not forwarded
    to anyone: the sender gets exactly one 'failed' receipt with
    'Recipient is offline'.  This holds whichever handle [B] was bound
    to when the close arrived. *)
Theorem send_after_recipient_disconnect_fails
    (oracle : Oracle) (w : World) (HA HB : SocketId) (A B : string)
    (md : MessageData) (content : string) :
  identity_of w HA = Some A -> identity_of w HB = Some B -> HA <> HB ->
  truthy (msg_to md) = Some B ->
  truthy (msg_encryptedContent md) = Some content ->
  let w' := step oracle w (HB, disconnect) in
  exists now : Z,
    emitted_by (handleMessageSend oracle HA (Some md)) w'
    = [socket_emit HA
         (messageDelivered (resolved_id oracle (msg_id md) w') "failed"
                           (Some "Recipient is offline") now)].
Proof.
  intros HidA HidB Hne Hto Hc w'.
  apply identity_of_get in HidA as (sd & Hs & _).
  assert (Hw' : router w' =
                mkHandler (JsMap.delete B (connectedUsers (router w)))
                          (JsMap.delete HB (userSockets (router w)))).
  { subst w'. by rewrite (step_disconnect_identified oracle w HB B HidB). }
  assert (Hs' : JsMap.get HA (userSockets (router w')) = Some sd).
  { rewrite Hw'; simpl. rewrite JsMapFacts.get_delete_ne by congruence.
    exact Hs. }
  destruct (handleMessageSend_routed oracle HA sd md B content w' Hs' Hto Hc)
    as (timestamp & deliveredAt & now & Hem).
  rewrite Hw' in Hem. simpl in Hem.
  rewrite JsMapFacts.get_delete_eq in Hem. simpl in Hem.
  by exists now.
Qed.

Lemma send_after_recipient_disconnect_fails_witness :
  let w := run_trace sample_oracle
             [("h1", identify "alice"); ("h2", identify "bob")]
             initial_world in
  let w' := step sample_oracle w ("h2", disconnect) in
  exists now : Z,
    emitted_by (handleMessageSend sample_oracle "h1"
                  (Some (mkMessageData (Some "bob") (Some "ct1") None
                                       (Some "m1")))) w'
    = [socket_emit "h1"
         (messageDelivered "m1" "failed" (Some "Recipient is offline") now)].
Proof.
  intros w w'.
  apply (send_after_recipient_disconnect_fails sample_oracle w "h1" "h2"
           "alice" "bob"
           (mkMessageData (Some "bob") (Some "ct1") None (Some "m1")) "ct1");
    [reflexivity | reflexivity | discriminate | reflexivity | reflexivity].
Defined.
